(** * Meta-analysis of a Dataset: [neurosynth/analysis/meta.py]

    A shallow embedding of [analyze_features] and of [MetaAnalysis.__init__]
    (with its inner [p_to_z]), and the properties of the contrast partition,
    the probability images, the p-to-z conversion and the min-studies mask.

    Numbers are as numpy has them: IEEE binary64 ([float], the kernel's
    primitive floats, so that [x / 0] is [infinity] or [nan] and every
    comparison with [nan] is [false]) and integers ([Z]; the counts of a
    dataset are far from the int64 range, so no wrap-around is written).
    One-dimensional arrays are lists, the image dictionary is a [gmap] from
    the key strings to arrays. *)

From Stdlib Require Import ZArith Floats Ascii.
From stdpp Require Import gmap strings list.

Set Warnings "-inexact-float".
#[local] Open Scope Z_scope.

(** ** Outcomes of a call: a value, or a Python exception *)

Inductive exn : Type :=
| ValueError            (* numpy: shapes not aligned / cannot broadcast *)
| KeyError (k : string) (* dict lookup of an absent key *)
| AxisError             (* numpy: an axis of a 0-d array *)
| OverflowError         (* float() of an int beyond the float range *)
| OSError               (* the file system: FileNotFoundError and the like *).

Inductive outcome (A : Type) : Type :=
| Returned (a : A)
| Raised (e : exn).
Arguments Returned {A} a.
Arguments Raised {A} e.

#[global] Instance outcome_ret : MRet outcome := fun A a => Returned a.
#[global] Instance outcome_bind : MBind outcome := fun A B f m =>
  match m with
  | Returned a => f a
  | Raised e => Raised e
  end.

(** ** The numpy operations the module uses *)

Module np.

(** int (Python's or int64) to float64, rounded to nearest even. *)
Definition float_of_Z (z : Z) : float :=
  SF2Prim (binary_normalize prec emax z 0 false).

(** [np.in1d(ar1, ar2)]: for each element of [ar1], is it in [ar2]. *)
Definition in1d (ar1 ar2 : list string) : list bool :=
  fmap (fun s => bool_decide (s ∈ ar2)) ar1.

(** [~mask] on a boolean array. *)
Definition invert (mask : list bool) : list bool := fmap negb mask.

(** [np.sum(mask)] of a boolean array: the number of [True]. *)
Definition count_true (mask : list bool) : Z :=
  Z.of_nat (length (filter (fun b => b = true) mask)).

(** Sum of an integer array. *)
Definition sum (l : list Z) : Z := foldr Z.add 0 l.

(** One row of [data.dot(mask)]: a boolean mask counts as 0/1. *)
Definition dot_row (row : list Z) (mask : list bool) : Z :=
  sum (zip_with (fun x (b : bool) => if b then x else 0) row mask).

(** [data.dot(mask)], for [data] of shape (n_voxels, n_studies). *)
Definition dot (data : list (list Z)) (mask : list bool) : list Z :=
  fmap (fun row => dot_row row mask) data.

(** [data.sum(axis=1)]. *)
Definition sum_axis1 (data : list (list Z)) : list Z := fmap sum data.

(** [np.mean] of an integer array ([nan] on an empty one). *)
Definition mean (l : list Z) : float :=
  (float_of_Z (sum l) / float_of_Z (Z.of_nat (length l)))%float.

(** [np.sign]: -1, 0 or 1, and [nan] stays [nan]. *)
Definition sign (x : float) : float :=
  if (0 <? x)%float then 1%float
  else if (x <? 0)%float then (-1)%float
  else if (x =? 0)%float then 0%float
  else x.

(** [np.isinf]. *)
Definition isinf (x : float) : bool := is_infinity x.

(** [np.where(a < t)[0]]: the indices whose entry is below [t], ascending. *)
Fixpoint where_lt_from (i : nat) (a : list float) (t : float) : list nat :=
  match a with
  | [] => []
  | x :: a' =>
      if (x <? t)%float then i :: where_lt_from (S i) a' t
      else where_lt_from (S i) a' t
  end.
Definition where_lt (a : list float) (t : float) : list nat :=
  where_lt_from 0 a t.

(** [a[idx] = x] for an index array [idx] (all indices in range). *)
Definition put (idx : list nat) (x : float) (a : list float) : list float :=
  foldr (fun i acc => <[i := x]> acc) a idx.

(** [a[a < t] = x]: the boolean-mask assignment. *)
Definition put_where_lt (t x : float) (a : list float) : list float :=
  fmap (fun y => if (y <? t)%float then x else y) a.

(** [a[np.isinf(a)] = x]. *)
Definition put_where_isinf (x : float) (a : list float) : list float :=
  fmap (fun y => if isinf y then x else y) a.

End np.

(** ** The Dataset collaborator, as far as the module reads it *)

(** [dataset.image_table]: the study ids and the activation matrix, one row
    per voxel and one column per study. *)
Module ImageTable.
Record t : Type := {
  ids : list string;
  data : list (list Z)
}.

(** Every row has one entry per study id; [data.dot(mask)] raises
    ValueError otherwise. *)
Definition shape_ok (mt : t) : bool :=
  forallb (fun row => Nat.eqb (length row) (length (ids mt))) (data mt).
End ImageTable.

Record Dataset : Type := {
  image_table : ImageTable.t;
  n_vox_in_mask : nat;                        (* dataset.masker.n_vox_in_mask *)
  get_feature_names : list string;
  get_studies : string -> float -> list string
    (* get_studies(features=f, frequency_threshold=t) *)
}.

(** ** What the module imports and this development does not unfold

    [stats.one_way], [stats.two_way], [stats.fdr],
    [imageutils.threshold_img] (called with [mask_out='above']),
    scipy's [norm.ppf], and the two string formats of the dictionary keys.
    They are pure, and the array-valued ones return one entry per voxel.

    The file system is met through two questions. [dir_ready d]: after
    [if not exists(d): makedirs(d)] the directory is there (it was, or
    [makedirs] made it); the empty path never is. [save_img_ok d img path]:
    with [d] in place, [imageutils.save_img(img, path, masker)] writes the
    file; it does not when the directory part of [path] is missing (only
    [d] itself was made) or the masker refuses the array. *)

Definition cell : Type := (Z * Z) * (Z * Z).

Class Externals : Type := {
  one_way : list Z -> Z -> list float;
  two_way : list cell -> list float;
  fdr : list float -> float -> float;
  threshold_img : list float -> float -> list float -> list float;
  norm_ppf : float -> float;
  format_2f : float -> string;   (* '%0.2f' % x *)
  format_s : float -> string;    (* '%s' % x *)
  dir_ready : string -> bool;
  save_img_ok : string -> list float -> string -> bool;
  dir_ready_empty : dir_ready "" = false;
  one_way_length : forall d n, length (one_way d n) = length d;
  two_way_length : forall c, length (two_way c) = length c;
  threshold_img_length : forall d t m,
    length m = length d -> length (threshold_img d t m) = length d
}.

(** [min_studies] is an int or a float, and the code asks which. *)
Inductive min_studies_t : Type :=
| MinInt (n : Z)
| MinFloat (x : float).

(** ** [MetaAnalysis] *)

Module MetaAnalysis.

Record t : Type := {
  dataset : Dataset;
  selected_ids : list string;
  selected_id_indices : list bool;
  images : gmap string (list float)
}.

(** The inner function [p_to_z(p, sign)] of [__init__]. *)
Definition p_to_z `{Externals} (p sign : list float) : list float :=
  let p := fmap (fun x => (x / 2)%float) p in
  let p := np.put_where_lt 1e-240 1e-240 p in
  let z := zip_with (fun x s => (abs (norm_ppf x) * s)%float) p sign in
  np.put_where_isinf (norm_ppf 1e-240 * -1)%float z.

(** The last step of [__init__]: mask out all voxels below the
    [min_studies] threshold. [pA] is the array the local variable names,
    which is also the one stored under the key "pA". *)
Definition min_studies_positive (min_studies : min_studies_t) : bool :=
  match min_studies with
  | MinInt n => 0 <? n
  | MinFloat x => (0 <? x)%float
  end.

(** [float(min_studies)] of an int raises OverflowError where rounding to
    nearest would leave the float range; the conversion is reached only
    inside [if min_studies > 0]. *)
Definition min_studies_overflows (min_studies : min_studies_t) : bool :=
  match min_studies with
  | MinInt n => (0 <? n) && is_infinity (np.float_of_Z n)
  | MinFloat _ => false
  end.

(** [min_studies] after the [isinstance(min_studies, int)] branch, for an
    int that [float()] converts; [__init__] raises on the others. *)
Definition min_studies_proportion (min_studies : min_studies_t)
    (n_mappables : Z) : float :=
  match min_studies with
  | MinInt n => (np.float_of_Z n / np.float_of_Z n_mappables)%float
  | MinFloat x => x
  end.

Definition vox_to_exclude (min_studies : min_studies_t) (n_mappables : Z)
    (pA : list float) : list nat :=
  np.where_lt pA (min_studies_proportion min_studies n_mappables).

Definition mask_images (min_studies : min_studies_t) (n_mappables : Z)
    (pA : list float) (images : gmap string (list float))
    : gmap string (list float) :=
  if min_studies_positive min_studies
  then np.put (vox_to_exclude min_studies n_mappables pA) 0%float <$> images
  else images.

Section init.
Context `{Externals}.
Variables (ds : Dataset) (ids : list string) (ids2 : option (list string)).
Variables (q prior : float) (min_studies : min_studies_t).

Definition mt : ImageTable.t := image_table ds.

(** [list(set(mt.ids) & set(ids))]; Python fixes no order, only the
    length is read. *)
Definition selected_ids_ : list string :=
  elements (list_to_set (ImageTable.ids mt) ∩ list_to_set ids : gset string).

Definition selected_id_indices_ : list bool :=
  np.in1d (ImageTable.ids mt) ids.

Definition unselected_id_indices : list bool :=
  match ids2 with
  | None => np.invert selected_id_indices_
  | Some ids2 => np.in1d (ImageTable.ids mt) ids2
  end.

Definition n_selected : Z := Z.of_nat (length selected_ids_).
Definition n_unselected : Z := np.count_true unselected_id_indices.
Definition n_mappables : Z := n_selected + n_unselected.

Definition n_selected_active_voxels : list Z :=
  np.dot (ImageTable.data mt) selected_id_indices_.
Definition n_unselected_active_voxels : list Z :=
  np.dot (ImageTable.data mt) unselected_id_indices.

Definition pF : float :=
  ((np.float_of_Z n_selected * 1) / np.float_of_Z n_mappables)%float.
Definition pA : list float :=
  fmap (fun s => ((np.float_of_Z s * 1) / np.float_of_Z n_mappables)%float)
      (np.sum_axis1 (ImageTable.data mt)).

Definition pAgF : list float :=
  fmap (fun a => (np.float_of_Z a * 1 / np.float_of_Z n_selected)%float)
      n_selected_active_voxels.
Definition pAgU : list float :=
  fmap (fun a => (np.float_of_Z a * 1 / np.float_of_Z n_unselected)%float)
      n_unselected_active_voxels.
Definition pFgA : list float :=
  zip_with (fun f a => (f * pF / a)%float) pAgF pA.

Definition pAgF_prior : list float :=
  zip_with (fun f u => (prior * f + (1 - prior) * u)%float) pAgF pAgU.
Definition pFgA_prior : list float :=
  zip_with (fun f fp => (f * prior / fp)%float) pAgF pAgF_prior.

(** One-way chi-square test for consistency of activation. *)
Definition p_vals_1 : list float :=
  np.put_where_lt 1e-240 1e-240 (one_way n_selected_active_voxels n_selected).
Definition z_sign_1 : list float :=
  fmap (fun a => np.sign (np.float_of_Z a - np.mean n_selected_active_voxels)%float)
      n_selected_active_voxels.
Definition pAgF_z : list float := p_to_z p_vals_1 z_sign_1.
Definition fdr_thresh_1 : float := fdr p_vals_1 q.
Definition pAgF_z_FDR : list float :=
  threshold_img pAgF_z fdr_thresh_1 p_vals_1.

(** Two-way chi-square for specificity of activation. *)
Definition cells : list cell :=
  zip_with (fun a u => ((a, n_selected - a), (u, n_unselected - u)))
           n_selected_active_voxels n_unselected_active_voxels.
Definition p_vals_2 : list float :=
  np.put_where_lt 1e-240 1e-240 (two_way cells).
Definition z_sign_2 : list float :=
  zip_with (fun f u => np.sign (f - u)%float) pAgF pAgU.
Definition pFgA_z : list float := p_to_z p_vals_2 z_sign_2.
Definition fdr_thresh_2 : float := fdr p_vals_2 q.
Definition pFgA_z_FDR : list float :=
  threshold_img pFgA_z fdr_thresh_2 p_vals_2.

(** The dictionary literal of [self.images], keys inserted in order. *)
Definition images_computed : gmap string (list float) :=
  <[ "pFgA_z_FDR_" +:+ format_s q := pFgA_z_FDR ]>
  (<[ "pAgF_z_FDR_" +:+ format_s q := pAgF_z_FDR ]>
  (<[ "specificity_z" := pFgA_z ]>
  (<[ "consistency_z" := pAgF_z ]>
  (<[ "pFgA_given_pF=" +:+ format_2f prior := pFgA_prior ]>
  (<[ "pAgF_given_pF=" +:+ format_2f prior := pAgF_prior ]>
  (<[ "pFgA" := pFgA ]>
  (<[ "pAgF" := pAgF ]>
  (<[ "pA" := pA ]> ∅)))))))).

Definition images_ : gmap string (list float) :=
  mask_images min_studies n_mappables pA images_computed.

(** [MetaAnalysis(dataset, ids, ids2, q, prior, min_studies)]. Three
    statements of the body can raise, in this order: [data.dot(mask)] on a
    table whose rows do not have one entry per id (ValueError); the
    chi-square test on a table of a single voxel, whose count array
    [np.squeeze] turns into a 0-d array (AxisError); and
    [float(min_studies)] on an int beyond the float range (OverflowError). *)
Definition __init__ : outcome t :=
  if ImageTable.shape_ok mt
  then if Nat.eqb (length (ImageTable.data mt)) 1 then Raised AxisError
       else if min_studies_overflows min_studies then Raised OverflowError
       else mret {| dataset := ds;
                    selected_ids := selected_ids_;
                    selected_id_indices := selected_id_indices_;
                    images := images_ |}
  else Raised ValueError.

End init.

End MetaAnalysis.

(** ** [MetaAnalysis.save_results] and the files it writes *)

(** [os.path.join(a, b)] on a POSIX system. *)
Definition starts_with_sep (s : string) : bool :=
  match s with
  | String c _ => bool_decide (c = "/"%char)
  | EmptyString => false
  end.

Fixpoint ends_with_sep (s : string) : bool :=
  match s with
  | EmptyString => false
  | String c EmptyString => bool_decide (c = "/"%char)
  | String _ s' => ends_with_sep s'
  end.

Definition join (a b : string) : string :=
  if starts_with_sep b then b
  else if bool_decide (a = "") || ends_with_sep a then a +:+ b
  else a +:+ "/" +:+ b.

(** The image writer's side: the arrays written so far, by path. A call
    that raises reports the exception only. *)
Definition files : Type := gmap string (list float).

(** One turn of the loop of [save_results]; [acc] is the outcome of the
    turns before it. *)
Definition save_image `{Externals} (output_dir prefix prefix_sep : string)
    (image_list : option (list string)) (suffix : string) (img : list float)
    (acc : outcome files) : outcome files :=
  fs ← acc;
  if match image_list with
     | None => true
     | Some l => bool_decide (suffix ∈ l)
     end
  then let outpath := join output_dir
                           (prefix +:+ prefix_sep +:+ suffix +:+ ".nii.gz") in
       if save_img_ok output_dir img outpath
       then mret (<[ outpath := img ]> fs)
       else Raised OSError
  else mret fs.

Definition save_results `{Externals} (self : MetaAnalysis.t)
    (output_dir prefix prefix_sep : string)
    (image_list : option (list string)) (fs : files) : outcome files :=
  let prefix_sep := if bool_decide (prefix = "") then "" else prefix_sep in
  if dir_ready output_dir
  then map_fold (save_image output_dir prefix prefix_sep image_list)
                (mret fs) (MetaAnalysis.images self)
  else Raised OSError.

(** ** [analyze_features] *)

(** A 2D array, as the list of its rows. *)
Definition matrix : Type := list (list float).

Definition zeros (n m : nat) : matrix := replicate n (replicate m 0%float).

(** [result[:, i] = col]: [col] has one entry per row, or a single entry
    that numpy broadcasts. *)
Definition set_column (i : nat) (col : list float) (result : matrix)
    : outcome matrix :=
  if Nat.eqb (length col) (length result)
  then mret (zip_with (fun row x => <[i := x]> row) result col)
  else match col with
       | [x] => mret (fmap (fun row => <[i := x]> row) result)
       | _ => Raised ValueError
       end.

(** [d[k]] on a dictionary. *)
Definition getitem (d : gmap string (list float)) (k : string)
    : outcome (list float) :=
  match d !! k with
  | Some v => mret v
  | None => Raised (KeyError k)
  end.

Section analyze.
Context `{Externals}.
Variables (dataset : Dataset) (image_type : string) (threshold q : float).
Variables (output_dir prefix : option string).

(** The body of the loop, for the [i]-th feature [f]; the state is the
    [result] matrix and the files written. *)
Definition analyze_feature (i : nat) (f : string) (st : matrix * files)
    : outcome (matrix * files) :=
  let ids := get_studies dataset f threshold in
  ma ← MetaAnalysis.__init__ dataset ids None q 0.5%float (MinInt 1);
  match output_dir with
  | None =>
      img ← getitem (MetaAnalysis.images ma) image_type;
      result ← set_column i img st.1;
      mret (result, st.2)
  | Some dir =>
      let pfx := match prefix with
                 | None => f
                 | Some prefix => prefix +:+ "_" +:+ f
                 end in
      fs ← save_results ma dir pfx "_" None st.2;
      mret (st.1, fs)
  end.

Fixpoint analyze_loop (i : nat) (features : list string) (st : matrix * files)
    : outcome (matrix * files) :=
  match features with
  | [] => mret st
  | f :: features =>
      st ← analyze_feature i f st;
      analyze_loop (S i) features st
  end.

(** Returns the matrix when [output_dir] is [None], and [None] otherwise;
    the second component is what was written through the image writer. *)
Definition analyze_features (features : option (list string)) (fs : files)
    : outcome (option matrix * files) :=
  let features := match features with
                  | None => get_feature_names dataset
                  | Some features => features
                  end in
  let result := match output_dir with
                | None => zeros (n_vox_in_mask dataset) (length features)
                | Some _ => []
                end in
  st ← analyze_loop 0 features (result, fs);
  match output_dir with
  | None => mret (Some st.1, st.2)
  | Some _ => mret (None, st.2)
  end.

End analyze.

(** ** Concrete data to run the definitions on *)

Module Sample.

(** An instance of the interface: both tests report p = 1 at every voxel,
    no p-value passes the FDR threshold -1, [threshold_img] zeroes the
    entries whose p is above the threshold, and [ppf] is tabulated at
    the points 0, 1/2 and 1 (scipy: -inf, 0, inf), at 1e-240 (about
    -33.1), and is -1 elsewhere. Every directory but the empty path is
    ready, and the writer accepts every file. *)
Definition ppf (p : float) : float :=
  if (p =? 1)%float then infinity
  else if (p =? 0)%float then neg_infinity
  else if (p =? 0.5)%float then 0%float
  else if (p =? 1e-240)%float then (-33.1)%float
  else (-1)%float.

Definition thr_above (d : list float) (t : float) (m : list float) : list float :=
  zip_with (fun x p => if (t <? p)%float then 0%float else x) d m.

Program Definition externals : Externals := {|
  one_way d _ := fmap (fun _ => 1%float) d;
  two_way c := fmap (fun _ => 1%float) c;
  fdr _ _ := (-1)%float;
  threshold_img := thr_above;
  norm_ppf := ppf;
  format_2f _ := "0.50";
  format_s _ := "0.01";
  dir_ready d := negb (bool_decide (d = ""));
  save_img_ok _ _ _ := true
|}.
Next Obligation. reflexivity. Qed.
Next Obligation. intros. apply length_fmap. Qed.
Next Obligation. intros. apply length_fmap. Qed.
Next Obligation.
  intros d t m Hm. unfold thr_above. rewrite length_zip_with. lia.
Qed.

(** Four studies and three voxels: voxel 0 is active in studies 0 and 2,
    voxel 1 in none, voxel 2 in all. *)
Definition table : ImageTable.t := {|
  ImageTable.ids := ["study0"; "study1"; "study2"; "study3"];
  ImageTable.data := [[1; 0; 1; 0]; [0; 0; 0; 0]; [1; 1; 1; 1]]
|}.

Definition dataset : Dataset := {|
  image_table := table;
  n_vox_in_mask := 3;
  get_feature_names := ["memory"; "pain"];
  get_studies f _ :=
    if bool_decide (f = "memory") then ["study0"; "study2"]
    else if bool_decide (f = "pain") then ["study1"]
    else []
|}.

End Sample.

(** ** Vocabulary of the statements *)

(** The keys of the image dictionary of a run with the given [q] and
    [prior], in insertion order. *)
Definition image_keys `{Externals} (q prior : float) : list string :=
  [ "pA"; "pAgF"; "pFgA";
    "pAgF_given_pF=" +:+ format_2f prior;
    "pFgA_given_pF=" +:+ format_2f prior;
    "consistency_z"; "specificity_z";
    "pAgF_z_FDR_" +:+ format_s q;
    "pFgA_z_FDR_" +:+ format_s q ].

(** The number of voxels of a dataset: the rows of its matrix. *)
Definition n_voxels (ds : Dataset) : nat :=
  length (ImageTable.data (image_table ds)).

(** Two id lists select the same studies of a table: every id of the table
    is in both or in neither. *)
Definition same_members (mt : ImageTable.t) (l l' : list string) : Prop :=
  forall x : string, x ∈ ImageTable.ids mt -> (x ∈ l <-> x ∈ l').

(** The same for the optional control list: both absent, or both given and
    selecting the same studies. *)
Definition same_control (mt : ImageTable.t) (c c' : option (list string)) : Prop :=
  match c, c' with
  | None, None => True
  | Some l, Some l' => same_members mt l l'
  | _, _ => False
  end.



(** Column [c] of a matrix: the entry of each row at [c]. *)
Definition column (c : nat) (M : matrix) : list (option float) :=
  fmap (fun row : list float => row !! c) M.

(** One voxel of [p_to_z]: halve, raise to the floor 1e-240, invert and
    give the tail its sign, and replace an infinite z by
    [norm.ppf(1e-240) * -1]. *)
Definition p_to_z_entry `{Externals} (x s : float) : float :=
  let h := (x / 2)%float in
  let c := if (h <? 1e-240)%float then 1e-240%float else h in
  let z := (abs (norm_ppf c) * s)%float in
  if is_infinity z then (norm_ppf 1e-240 * -1)%float else z.

(** The image [analyze_features] reads for feature [f]: the entry
    [image_type] of the dictionary of the run on the ids of [f], with the
    constructor's defaults for [prior] and [min_studies]. *)
Definition feature_image `{Externals} (ds : Dataset) (image_type : string)
    (threshold q : float) (f : string) : option (list float) :=
  MetaAnalysis.images_ ds (get_studies ds f threshold) None q 0.5%float (MinInt 1)
    !! image_type.

(** A binary activation matrix: every entry is 0 or 1. *)
Definition binary_table (mt : ImageTable.t) : Prop :=
  Forall (Forall (fun x : Z => x = 0 \/ x = 1)) (ImageTable.data mt).

(** The [outpath] of [save_results] for the image stored under [suffix]. *)
Definition outpath (output_dir prefix prefix_sep suffix : string) : string :=
  join output_dir
       (prefix +:+ (if bool_decide (prefix = "") then "" else prefix_sep)
               +:+ suffix +:+ ".nii.gz").

(** [suffix in image_list], with [image_list = None] standing for all keys. *)
Definition listed (image_list : option (list string)) (suffix : string) : bool :=
  match image_list with
  | None => true
  | Some l => bool_decide (suffix ∈ l)
  end.

(** The writer accepts every listed image of a dictionary at its path. *)
Definition writer_accepts `{Externals} (d prefix sep : string)
    (il : option (list string)) (images : gmap string (list float)) : Prop :=
  forall k img, images !! k = Some img -> listed il k = true ->
    save_img_ok d img (outpath d prefix sep k) = true.


(** What [np.sign] returns: 1, -1, a zero, or the NaN it was given. *)
Definition sign_value (s : float) : Prop :=
  s = 1%float \/ s = (-1)%float \/ (s =? 0)%float = true \/ is_nan s = true.


(** The sample table behind a masker that counts five voxels, not three. *)
Definition mismatched_dataset : Dataset := {|
  image_table := Sample.table;
  n_vox_in_mask := 5;
  get_feature_names := get_feature_names Sample.dataset;
  get_studies := get_studies Sample.dataset
|}.

(** * Properties *)

(** ** Floating-point facts *)

Section float_facts.

Lemma ltb_false_of_eqb (a t : float) :
  (a =? t)%float = true -> (a <? t)%float = false.
Proof.
  rewrite FloatAxioms.eqb_spec, FloatAxioms.ltb_spec. unfold SFeqb, SFltb.
  destruct (SFcompare _ _) as [[]|]; congruence.
Qed.

Lemma Prim2SF_of_eqb_zero (d : float) :
  (d =? 0)%float = true -> exists s, Prim2SF d = S754_zero s.
Proof.
  rewrite FloatAxioms.eqb_spec. change (Prim2SF 0) with (S754_zero false).
  destruct (Prim2SF d) as [s | s | | s m e]; cbn; try discriminate; eauto.
  - destruct s; discriminate.
  - destruct s; discriminate.
Qed.

Lemma not_finite_nan (x : float) :
  Prim2SF x = S754_nan -> is_finite x = false.
Proof.
  intros E. unfold is_finite, is_nan. rewrite FloatAxioms.eqb_spec, E. reflexivity.
Qed.

Lemma not_finite_infinity (x : float) (s : bool) :
  Prim2SF x = S754_infinity s -> is_finite x = false.
Proof.
  intros E. unfold is_finite, is_nan, is_infinity.
  rewrite !FloatAxioms.eqb_spec, FloatAxioms.abs_spec, E. destruct s; reflexivity.
Qed.

(** numpy's division by zero: [nan] or an infinity, never a number. *)
Lemma div_zero_not_finite (x d : float) :
  (d =? 0)%float = true -> is_finite (x / d) = false.
Proof.
  intros [s Hd]%Prim2SF_of_eqb_zero.
  pose proof (FloatAxioms.div_spec x d) as E. rewrite Hd in E.
  destruct (Prim2SF x) as [sx | sx | | sx m e]; cbn in E;
    eauto using not_finite_nan, not_finite_infinity.
Qed.















End float_facts.

(** ** Arrays: [np.where], index assignment *)

Section arrays.

Lemma elem_of_where_lt_from (a : list float) (t : float) (i v : nat) :
  v ∈ np.where_lt_from i a t <->
  exists y, (i <= v)%nat /\ a !! (v - i)%nat = Some y /\ (y <? t)%float = true.
Proof.
  revert i. induction a as [|x a IH]; intros i; simpl.
  - split; [intros Hin; inversion Hin | intros (y & _ & Hy & _); discriminate].
  - assert (Hrec : v ∈ np.where_lt_from (S i) a t <->
                   exists y, (i < v)%nat /\ (x :: a) !! (v - i)%nat = Some y
                             /\ (y <? t)%float = true).
    { rewrite IH. split; intros (y & Hle & Hy & Hlt); exists y.
      - split; [lia|]. split; [|done].
        replace (v - i)%nat with (S (v - S i)) by lia. done.
      - split; [lia|]. split; [|done].
        replace (v - i)%nat with (S (v - S i)) in Hy by lia. done. }
    destruct (x <? t)%float eqn:Hx.
    + rewrite elem_of_cons, Hrec. split.
      * intros [-> | (y & Hle & Hy & Hlt)].
        -- exists x. rewrite Nat.sub_diag. auto.
        -- exists y. split; [lia | done].
      * intros (y & Hle & Hy & Hlt).
        destruct (decide (v = i)) as [-> | Hne]; [by left | right].
        exists y. split; [lia | done].
    + rewrite Hrec. split.
      * intros (y & Hle & Hy & Hlt). exists y. split; [lia | done].
      * intros (y & Hle & Hy & Hlt).
        destruct (decide (v = i)) as [-> | Hne].
        -- rewrite Nat.sub_diag in Hy. simpl in Hy. congruence.
        -- exists y. split; [lia | done].
Qed.

(** The excluded indices are exactly those whose entry is below [t]. *)
Lemma elem_of_where_lt (a : list float) (t : float) (v : nat) :
  v ∈ np.where_lt a t <->
  exists y, a !! v = Some y /\ (y <? t)%float = true.
Proof.
  unfold np.where_lt. rewrite elem_of_where_lt_from, Nat.sub_0_r.
  split; intros (y & H); exists y; intuition lia.
Qed.

Lemma where_lt_lt_length (a : list float) (t : float) (v : nat) :
  v ∈ np.where_lt a t -> (v < length a)%nat.
Proof.
  intros (y & Hy & _)%elem_of_where_lt. by eapply lookup_lt_Some.
Qed.

Lemma length_put (idx : list nat) (x : float) (a : list float) :
  length (np.put idx x a) = length a.
Proof.
  induction idx as [|i idx IH]; simpl; [done|]. by rewrite length_insert.
Qed.

Lemma lookup_put (idx : list nat) (x : float) (a : list float) (v : nat) :
  np.put idx x a !! v = if decide (v ∈ idx) then (fun _ => x) <$> a !! v else a !! v.
Proof.
  induction idx as [|i idx IH]; simpl.
  - destruct (decide (v ∈ [])) as [Hin|]; [inversion Hin | done].
  - rewrite list_lookup_insert, length_put.
    destruct (decide (i = v /\ _)) as [[-> Hlt] | Hno].
    + rewrite decide_True by left.
      apply lookup_lt_is_Some_2 in Hlt as [y ->]. done.
    + rewrite IH. destruct (decide (v ∈ idx)) as [Hin | Hnin].
      * rewrite decide_True by (by right). done.
      * destruct (decide (v ∈ i :: idx)) as [Hc | ?]; [|done].
        apply elem_of_cons in Hc as [Heq | ?]; [|done].
        destruct (a !! v) as [y|] eqn:Hy; [|done].
        exfalso. apply Hno. split; [done|]. subst v. by eapply lookup_lt_Some.
Qed.

(** Zeroing the voxels below [t] once more, with the exclusion set
    recomputed from the zeroed array, changes nothing. *)
Lemma put_where_lt_twice (a b : list float) (t x : float) :
  let a' := np.put (np.where_lt a t) x a in
  np.put (np.where_lt a' t) x (np.put (np.where_lt a t) x b)
  = np.put (np.where_lt a t) x b.
Proof.
  intros a'. apply list_eq. intros v. rewrite !lookup_put.
  destruct (decide (v ∈ np.where_lt a' t)) as [Hin' | ]; [|done].
  apply elem_of_where_lt in Hin' as (y & Hy & Hlt).
  unfold a' in Hy. rewrite lookup_put in Hy.
  destruct (decide (v ∈ np.where_lt a t)) as [Hin | Hnin].
  - by destruct (b !! v).
  - exfalso. apply Hnin, elem_of_where_lt. eauto.
Qed.

End arrays.

(** ** The image dictionary: its keys and the shape of its arrays *)

Section dictionary.
Context `{Externals}.
Variables (ds : Dataset) (ids : list string) (ids2 : option (list string)).
Variables (q prior : float).

Import MetaAnalysis.

#[local] Ltac key_ne := let E := fresh in intros E; simpl in E; discriminate E.
#[local] Ltac find_key :=
  unfold images_computed;
  repeat first [ apply lookup_insert_eq | rewrite lookup_insert_ne by key_ne ].

Lemma lookup_pA :
  images_computed ds ids ids2 q prior !! "pA" = Some (pA ds ids ids2).
Proof. find_key. Qed.

Lemma lookup_pAgF :
  images_computed ds ids ids2 q prior !! "pAgF" = Some (pAgF ds ids).
Proof. find_key. Qed.

Lemma lookup_pFgA :
  images_computed ds ids ids2 q prior !! "pFgA" = Some (pFgA ds ids ids2).
Proof. find_key. Qed.

Lemma lookup_pAgF_prior :
  images_computed ds ids ids2 q prior !! ("pAgF_given_pF=" +:+ format_2f prior)
  = Some (pAgF_prior ds ids ids2 prior).
Proof. find_key. Qed.

Lemma lookup_pFgA_prior :
  images_computed ds ids ids2 q prior !! ("pFgA_given_pF=" +:+ format_2f prior)
  = Some (pFgA_prior ds ids ids2 prior).
Proof. find_key. Qed.

Lemma lookup_consistency_z :
  images_computed ds ids ids2 q prior !! "consistency_z" = Some (pAgF_z ds ids).
Proof. find_key. Qed.

Lemma lookup_specificity_z :
  images_computed ds ids ids2 q prior !! "specificity_z"
  = Some (pFgA_z ds ids ids2).
Proof. find_key. Qed.

Lemma lookup_pAgF_z_FDR :
  images_computed ds ids ids2 q prior !! ("pAgF_z_FDR_" +:+ format_s q)
  = Some (pAgF_z_FDR ds ids q).
Proof. find_key. Qed.

Lemma lookup_pFgA_z_FDR :
  images_computed ds ids ids2 q prior !! ("pFgA_z_FDR_" +:+ format_s q)
  = Some (pFgA_z_FDR ds ids ids2 q).
Proof. find_key. Qed.

(** The dictionary has exactly the nine keys. *)
Lemma images_computed_keys (k : string) :
  is_Some (images_computed ds ids ids2 q prior !! k) <-> k ∈ image_keys q prior.
Proof.
  unfold images_computed, image_keys.
  rewrite !lookup_insert_is_Some', lookup_empty, !elem_of_cons, elem_of_nil.
  split.
  - intros Hk. repeat destruct Hk as [Hk | Hk]; subst; auto 12.
    by destruct Hk.
  - intros Hk. repeat destruct Hk as [Hk | Hk]; subst; auto 12. done.
Qed.

End dictionary.

Section shapes.
Context `{Externals}.
Variables (ds : Dataset) (ids : list string) (ids2 : option (list string)).
Variables (q prior : float).

Import MetaAnalysis.

Lemma length_dot (d : list (list Z)) (mask : list bool) :
  length (np.dot d mask) = length d.
Proof. apply length_fmap. Qed.

Lemma length_p_to_z (p sign : list float) :
  length p = length sign -> length (p_to_z p sign) = length p.
Proof.
  intros Hlen. unfold p_to_z, np.put_where_isinf, np.put_where_lt.
  rewrite length_fmap, length_zip_with, !length_fmap. lia.
Qed.

Lemma length_pA : length (pA ds ids ids2) = n_voxels ds.
Proof. unfold pA, np.sum_axis1. by rewrite !length_fmap. Qed.

Lemma length_pAgF : length (pAgF ds ids) = n_voxels ds.
Proof. unfold pAgF, n_selected_active_voxels. by rewrite length_fmap, length_dot. Qed.

Lemma length_pAgU : length (pAgU ds ids ids2) = n_voxels ds.
Proof.
  unfold pAgU, n_unselected_active_voxels. by rewrite length_fmap, length_dot.
Qed.

Lemma length_pFgA : length (pFgA ds ids ids2) = n_voxels ds.
Proof. unfold pFgA. rewrite length_zip_with, length_pAgF, length_pA. lia. Qed.

Lemma length_pAgF_prior : length (pAgF_prior ds ids ids2 prior) = n_voxels ds.
Proof.
  unfold pAgF_prior. rewrite length_zip_with, length_pAgF, length_pAgU. lia.
Qed.

Lemma length_pFgA_prior : length (pFgA_prior ds ids ids2 prior) = n_voxels ds.
Proof.
  unfold pFgA_prior.
  rewrite length_zip_with, length_pAgF, length_pAgF_prior. lia.
Qed.

Lemma length_p_vals_1 : length (p_vals_1 ds ids) = n_voxels ds.
Proof.
  unfold p_vals_1, np.put_where_lt, n_selected_active_voxels.
  by rewrite length_fmap, one_way_length, length_dot.
Qed.

Lemma length_pAgF_z : length (pAgF_z ds ids) = n_voxels ds.
Proof.
  unfold pAgF_z. rewrite length_p_to_z; [apply length_p_vals_1|].
  rewrite length_p_vals_1. unfold z_sign_1, n_selected_active_voxels.
  by rewrite length_fmap, length_dot.
Qed.

Lemma length_pAgF_z_FDR : length (pAgF_z_FDR ds ids q) = n_voxels ds.
Proof.
  unfold pAgF_z_FDR.
  rewrite threshold_img_length; [apply length_pAgF_z|].
  by rewrite length_p_vals_1, length_pAgF_z.
Qed.

Lemma length_p_vals_2 : length (p_vals_2 ds ids ids2) = n_voxels ds.
Proof.
  unfold p_vals_2, np.put_where_lt, cells.
  rewrite length_fmap, two_way_length, length_zip_with.
  unfold n_selected_active_voxels, n_unselected_active_voxels.
  rewrite !length_dot. unfold n_voxels, mt. lia.
Qed.

Lemma length_pFgA_z : length (pFgA_z ds ids ids2) = n_voxels ds.
Proof.
  unfold pFgA_z. rewrite length_p_to_z; [apply length_p_vals_2|].
  rewrite length_p_vals_2. unfold z_sign_2.
  rewrite length_zip_with, length_pAgF, length_pAgU. lia.
Qed.

Lemma length_pFgA_z_FDR : length (pFgA_z_FDR ds ids ids2 q) = n_voxels ds.
Proof.
  unfold pFgA_z_FDR.
  rewrite threshold_img_length; [apply length_pFgA_z|].
  by rewrite length_p_vals_2, length_pFgA_z.
Qed.

(** Every image has one entry per voxel. *)
Lemma images_computed_length :
  map_Forall (fun _ img => length img = n_voxels ds)
             (images_computed ds ids ids2 q prior).
Proof.
  unfold images_computed.
  repeat (apply map_Forall_insert_2;
    [solve [auto using length_pA, length_pAgF, length_pFgA, length_pAgF_prior,
              length_pFgA_prior, length_pAgF_z, length_pFgA_z,
              length_pAgF_z_FDR, length_pFgA_z_FDR] |]).
  apply map_Forall_empty.
Qed.

Lemma images_length (min_studies : min_studies_t) :
  map_Forall (fun _ img => length img = n_voxels ds)
             (images_ ds ids ids2 q prior min_studies).
Proof.
  unfold images_, mask_images.
  destruct (min_studies_positive min_studies); [|apply images_computed_length].
  intros k img. rewrite lookup_fmap.
  destruct (images_computed ds ids ids2 q prior !! k) as [img0|] eqn:Hk;
    [|discriminate].
  intros [= <-]. rewrite length_put. by eapply images_computed_length.
Qed.

(** The masked indices are indices of every image: the assignment
    [images[k][vox_to_exclude] = 0] is always in range. *)
Lemma vox_to_exclude_in_range (min_studies : min_studies_t) (k : string)
    (img : list float) (v : nat) :
  images_computed ds ids ids2 q prior !! k = Some img ->
  v ∈ vox_to_exclude min_studies (n_mappables ds ids ids2) (pA ds ids ids2) ->
  (v < length img)%nat.
Proof.
  intros Hk Hv%where_lt_lt_length.
  rewrite (images_computed_length _ _ Hk). by rewrite length_pA in Hv.
Qed.

End shapes.

(** ** The min-studies mask *)

Section masking.
Context `{Externals}.

Import MetaAnalysis.

Lemma lookup_mask_images (ms : min_studies_t) (nm : Z) (a : list float)
    (imgs : gmap string (list float)) (k : string) :
  mask_images ms nm a imgs !! k
  = (fun img => if min_studies_positive ms
                then np.put (vox_to_exclude ms nm a) 0%float img
                else img) <$> imgs !! k.
Proof.
  unfold mask_images. destruct (min_studies_positive ms).
  - apply lookup_fmap.
  - by destruct (imgs !! k).
Qed.

(** One entry of a masked image: zero when the voxel's [pA] is below the
    threshold, the entry itself otherwise. *)
Lemma lookup_mask_entry (ms : min_studies_t) (nm : Z) (a img : list float)
    (v : nat) (x y : float) :
  a !! v = Some y -> img !! v = Some x ->
  (if min_studies_positive ms
   then np.put (vox_to_exclude ms nm a) 0%float img
   else img) !! v
  = Some (if min_studies_positive ms
             && (y <? min_studies_proportion ms nm)%float
          then 0%float else x).
Proof.
  intros Ha Hx. destruct (min_studies_positive ms); simpl; [|done].
  rewrite lookup_put, Hx. unfold vox_to_exclude.
  destruct (decide _) as [Hin | Hnin].
  - apply elem_of_where_lt in Hin as (y' & Hy' & Hlt).
    rewrite Ha in Hy'. injection Hy' as <-. by rewrite Hlt.
  - destruct (y <? _)%float eqn:Hlt; [|done].
    exfalso. apply Hnin, elem_of_where_lt. eauto.
Qed.

(** Running the masking step again on its own result, with the exclusion
    set recomputed from the masked [pA], gives the same dictionary. *)
Lemma mask_images_twice (ms : min_studies_t) (nm : Z) (a : list float)
    (imgs : gmap string (list float)) :
  mask_images ms nm (np.put (vox_to_exclude ms nm a) 0%float a)
              (mask_images ms nm a imgs)
  = mask_images ms nm a imgs.
Proof.
  unfold mask_images. destruct (min_studies_positive ms); [|done].
  rewrite <- map_fmap_compose. apply map_fmap_ext. intros k img _.
  apply put_where_lt_twice.
Qed.

End masking.

(** C4: the min-studies step. For every image [img] of the dictionary and
    every voxel [v], with [a = pA[v]] and [x = img[v]] as computed: the final
    dictionary holds, under the same key, an image whose entry at [v] is 0
    when [min_studies > 0] and [a < threshold], and [x] otherwise, where the
    threshold of an integer [n] is [float(n) / n_mappables] and that of a
    float is the float itself. A voxel with [a] equal to the threshold keeps
    its entry, and with [min_studies == 0] the dictionary is the computed
    one. *)
Theorem min_studies_masking `{Externals} (ds : Dataset) (ids : list string)
    (ids2 : option (list string)) (q prior : float) (ms : min_studies_t)
    (k : string) (img : list float) (v : nat) (x : float) :
  MetaAnalysis.images_computed ds ids ids2 q prior !! k = Some img ->
  img !! v = Some x ->
  exists a img',
    MetaAnalysis.pA ds ids ids2 !! v = Some a /\
    MetaAnalysis.images_ ds ids ids2 q prior ms !! k = Some img' /\
    length img' = length img /\
    img' !! v = Some
      match ms with
      | MinInt n =>
          if (0 <? n)
             && (a <? np.float_of_Z n
                      / np.float_of_Z (MetaAnalysis.n_mappables ds ids ids2))%float
          then 0%float else x
      | MinFloat t =>
          if (0 <? t)%float && (a <? t)%float then 0%float else x
      end /\
    ((a =? MetaAnalysis.min_studies_proportion ms
             (MetaAnalysis.n_mappables ds ids ids2))%float = true ->
     img' !! v = Some x) /\
    MetaAnalysis.images_ ds ids ids2 q prior (MinInt 0)
    = MetaAnalysis.images_computed ds ids ids2 q prior /\
    MetaAnalysis.images_ ds ids ids2 q prior (MinFloat 0)
    = MetaAnalysis.images_computed ds ids ids2 q prior.
Proof.
  intros Hk Hx.
  assert (Hlen : length img = n_voxels ds)
    by (by eapply images_computed_length).
  destruct (lookup_lt_is_Some_2 (MetaAnalysis.pA ds ids ids2) v) as [a Ha].
  { rewrite length_pA, <- Hlen. by eapply lookup_lt_Some. }
  pose proof (lookup_mask_entry ms (MetaAnalysis.n_mappables ds ids ids2)
                _ _ _ _ _ Ha Hx) as Hentry.
  eexists a, _. split; [done|]. split.
  { unfold MetaAnalysis.images_. rewrite lookup_mask_images, Hk. reflexivity. }
  split; [|split; [|split; [|split]]].
  - destruct (MetaAnalysis.min_studies_positive ms); [apply length_put | done].
  - rewrite Hentry. by destruct ms.
  - intros Heq%ltb_false_of_eqb. rewrite Hentry, Heq.
    by rewrite andb_false_r.
  - reflexivity.
  - reflexivity.
Qed.

(** C5: masking is idempotent. If [pA'] is the (masked) array stored under
    "pA" in the dictionary a run produced, applying the masking step to that
    dictionary with the same [min_studies], the exclusion set recomputed
    from [pA'], returns the dictionary unchanged. *)
Theorem masking_idempotent `{Externals} (ds : Dataset) (ids : list string)
    (ids2 : option (list string)) (q prior : float) (ms : min_studies_t)
    (pA' : list float) :
  MetaAnalysis.images_ ds ids ids2 q prior ms !! "pA" = Some pA' ->
  MetaAnalysis.mask_images ms (MetaAnalysis.n_mappables ds ids ids2) pA'
    (MetaAnalysis.images_ ds ids ids2 q prior ms)
  = MetaAnalysis.images_ ds ids ids2 q prior ms.
Proof.
  unfold MetaAnalysis.images_ at 1.
  rewrite lookup_mask_images, lookup_pA. simpl. intros [= <-].
  unfold MetaAnalysis.images_.
  destruct (MetaAnalysis.min_studies_positive ms) eqn:Hpos.
  - apply mask_images_twice.
  - unfold MetaAnalysis.mask_images. by rewrite Hpos.
Qed.

(** ** Conditional probabilities *)

(** A voxel whose stored [pA] is positive was not masked: the final
    dictionary has, at that voxel, the entries that were computed. *)
Lemma positive_pA_retained `{Externals} (ds : Dataset) (ids : list string)
    (ids2 : option (list string)) (q prior : float) (ms : min_studies_t)
    (v : nat) (a a' : float) (imgA : list float) :
  MetaAnalysis.pA ds ids ids2 !! v = Some a ->
  MetaAnalysis.images_ ds ids ids2 q prior ms !! "pA" = Some imgA ->
  imgA !! v = Some a' ->
  (0 <? a')%float = true ->
  a' = a /\
  forall k img x,
    MetaAnalysis.images_computed ds ids ids2 q prior !! k = Some img ->
    img !! v = Some x ->
    exists img', MetaAnalysis.images_ ds ids ids2 q prior ms !! k = Some img'
                 /\ img' !! v = Some x.
Proof.
  intros Ha HA Ha' Hpos. unfold MetaAnalysis.images_ in *.
  rewrite lookup_mask_images, lookup_pA in HA. simpl in HA.
  injection HA as <-.
  rewrite (lookup_mask_entry ms _ _ _ _ _ _ Ha Ha) in Ha'.
  destruct (MetaAnalysis.min_studies_positive ms
            && (a <? MetaAnalysis.min_studies_proportion ms
                       (MetaAnalysis.n_mappables ds ids ids2))%float) eqn:Hc.
  - injection Ha' as <-. discriminate Hpos.
  - injection Ha' as <-. split; [done|]. intros k img x Hk Hx.
    eexists. rewrite lookup_mask_images, Hk. split; [reflexivity|].
    by rewrite (lookup_mask_entry ms _ _ _ _ _ _ Ha Hx), Hc.
Qed.

(** C3: Bayes' rule and the prior adjustment, entry by entry. With
    [a = pA[v]], [f = pAgF[v]] and [u = pAgU[v]], the dictionary computed by
    a run holds [f * pF / a] under "pFgA", where
    [pF = n_selected * 1.0 / n_mappables], [prior * f + (1 - prior) * u]
    under the prior-tagged "pAgF_given_pF=" key and [f * prior] over that
    value under the "pFgA_given_pF=" key. This holds at every voxel as
    computed, and in the final dictionary at every voxel whose stored [pA]
    is positive. Both quotients are plain float divisions: a zero
    denominator gives [nan] or an infinity in the one as in the other. *)
Theorem bayes_consistency `{Externals} (ds : Dataset) (ids : list string)
    (ids2 : option (list string)) (q prior : float) (v : nat) (a f u : float) :
  MetaAnalysis.pA ds ids ids2 !! v = Some a ->
  MetaAnalysis.pAgF ds ids !! v = Some f ->
  MetaAnalysis.pAgU ds ids ids2 !! v = Some u ->
  let pF := (np.float_of_Z (MetaAnalysis.n_selected ds ids) * 1
             / np.float_of_Z (MetaAnalysis.n_mappables ds ids ids2))%float in
  let fp := (prior * f + (1 - prior) * u)%float in
  MetaAnalysis.pF ds ids ids2 = pF /\
  (exists img,
     MetaAnalysis.images_computed ds ids ids2 q prior !! "pFgA" = Some img /\
     img !! v = Some (f * pF / a)%float) /\
  (exists img,
     MetaAnalysis.images_computed ds ids ids2 q prior
       !! ("pAgF_given_pF=" +:+ format_2f prior) = Some img /\
     img !! v = Some fp) /\
  (exists img,
     MetaAnalysis.images_computed ds ids ids2 q prior
       !! ("pFgA_given_pF=" +:+ format_2f prior) = Some img /\
     img !! v = Some (f * prior / fp)%float) /\
  (forall (ms : min_studies_t) (imgA : list float) (a' : float),
     MetaAnalysis.images_ ds ids ids2 q prior ms !! "pA" = Some imgA ->
     imgA !! v = Some a' ->
     (0 <? a')%float = true ->
     a' = a /\
     (exists img,
        MetaAnalysis.images_ ds ids ids2 q prior ms !! "pFgA" = Some img /\
        img !! v = Some (f * pF / a)%float) /\
     (exists img,
        MetaAnalysis.images_ ds ids ids2 q prior ms
          !! ("pAgF_given_pF=" +:+ format_2f prior) = Some img /\
        img !! v = Some fp) /\
     (exists img,
        MetaAnalysis.images_ ds ids ids2 q prior ms
          !! ("pFgA_given_pF=" +:+ format_2f prior) = Some img /\
        img !! v = Some (f * prior / fp)%float)) /\
  ((a =? 0)%float = true -> is_finite (f * pF / a) = false) /\
  ((fp =? 0)%float = true -> is_finite (f * prior / fp) = false).
Proof.
  intros Ha Hf Hu pF fp.
  assert (Hfp : MetaAnalysis.pAgF_prior ds ids ids2 prior !! v = Some fp).
  { unfold MetaAnalysis.pAgF_prior. by rewrite lookup_zip_with, Hf, Hu. }
  assert (H1 : MetaAnalysis.pFgA ds ids ids2 !! v = Some (f * pF / a)%float).
  { unfold MetaAnalysis.pFgA. by rewrite lookup_zip_with, Hf, Ha. }
  assert (H2 : MetaAnalysis.pFgA_prior ds ids ids2 prior !! v
               = Some (f * prior / fp)%float).
  { unfold MetaAnalysis.pFgA_prior. by rewrite lookup_zip_with, Hf, Hfp. }
  split; [reflexivity|].
  split; [eexists; split; [apply lookup_pFgA | exact H1] |].
  split; [eexists; split; [apply lookup_pAgF_prior | exact Hfp] |].
  split; [eexists; split; [apply lookup_pFgA_prior | exact H2] |].
  split; [|split; apply div_zero_not_finite].
  intros ms imgA a' HA Ha' Hpos.
  destruct (positive_pA_retained ds ids ids2 q prior ms v a a' imgA
              Ha HA Ha' Hpos) as [-> Hkeep].
  split; [done|].
  split; [exact (Hkeep _ _ _ (lookup_pFgA ds ids ids2 q prior) H1) |].
  split; [exact (Hkeep _ _ _ (lookup_pAgF_prior ds ids ids2 q prior) Hfp) |].
  exact (Hkeep _ _ _ (lookup_pFgA_prior ds ids ids2 q prior) H2).
Qed.

(** ** The statistical images and the prior *)

(** C9: the prior only reaches the two prior-tagged images. For two runs
    that differ in the prior alone, the final dictionaries agree on
    "consistency_z", "specificity_z" and both FDR-thresholded z-images, which
    are present, and on every key that is not one of the prior-tagged keys. *)
Theorem z_images_independent_of_prior `{Externals} (ds : Dataset)
    (ids : list string) (ids2 : option (list string)) (q : float)
    (ms : min_studies_t) (p1 p2 : float) :
  let run1 := MetaAnalysis.images_ ds ids ids2 q p1 ms in
  let run2 := MetaAnalysis.images_ ds ids ids2 q p2 ms in
  (run1 !! "consistency_z" = run2 !! "consistency_z"
   /\ is_Some (run1 !! "consistency_z")) /\
  (run1 !! "specificity_z" = run2 !! "specificity_z"
   /\ is_Some (run1 !! "specificity_z")) /\
  (run1 !! ("pAgF_z_FDR_" +:+ format_s q) = run2 !! ("pAgF_z_FDR_" +:+ format_s q)
   /\ is_Some (run1 !! ("pAgF_z_FDR_" +:+ format_s q))) /\
  (run1 !! ("pFgA_z_FDR_" +:+ format_s q) = run2 !! ("pFgA_z_FDR_" +:+ format_s q)
   /\ is_Some (run1 !! ("pFgA_z_FDR_" +:+ format_s q))) /\
  (forall k : string,
     k ∉ [ "pAgF_given_pF=" +:+ format_2f p1; "pFgA_given_pF=" +:+ format_2f p1;
           "pAgF_given_pF=" +:+ format_2f p2; "pFgA_given_pF=" +:+ format_2f p2 ] ->
     run1 !! k = run2 !! k).
Proof.
  intros run1 run2. unfold run1, run2, MetaAnalysis.images_.
  rewrite !lookup_mask_images.
  rewrite !lookup_consistency_z, !lookup_specificity_z, !lookup_pAgF_z_FDR,
    !lookup_pFgA_z_FDR.
  repeat (split; [by eauto|]).
  intros k Hk. rewrite !lookup_mask_images. f_equal.
  rewrite !not_elem_of_cons in Hk. destruct Hk as (H1 & H2 & H3 & H4 & _).
  unfold MetaAnalysis.images_computed.
  rewrite !lookup_insert.
  repeat case_decide; first [reflexivity | congruence].
Qed.

(** ** The contrast partition *)

Section partition.
Variables (ds : Dataset).

Import MetaAnalysis.

Lemma in1d_same_members (l l' : list string) :
  same_members (image_table ds) l l' ->
  np.in1d (ImageTable.ids (image_table ds)) l
  = np.in1d (ImageTable.ids (image_table ds)) l'.
Proof.
  intros Hsame. unfold np.in1d. apply list_fmap_ext. intros i x Hx.
  apply bool_decide_ext, Hsame. by eapply list_elem_of_lookup_2.
Qed.

Lemma selected_id_indices_same (ids ids' : list string) :
  same_members (image_table ds) ids ids' ->
  selected_id_indices_ ds ids = selected_id_indices_ ds ids'.
Proof. apply in1d_same_members. Qed.

Lemma selected_ids_same (ids ids' : list string) :
  same_members (image_table ds) ids ids' ->
  selected_ids_ ds ids = selected_ids_ ds ids'.
Proof.
  intros Hsame. unfold selected_ids_. f_equal. apply set_eq. intros x.
  rewrite !elem_of_intersection, !elem_of_list_to_set.
  unfold mt. specialize (Hsame x). tauto.
Qed.

Lemma unselected_id_indices_same (ids ids' : list string)
    (ids2 ids2' : option (list string)) :
  same_members (image_table ds) ids ids' ->
  same_control (image_table ds) ids2 ids2' ->
  unselected_id_indices ds ids ids2 = unselected_id_indices ds ids' ids2'.
Proof.
  intros Hsame Hctl. unfold unselected_id_indices.
  destruct ids2 as [l|], ids2' as [l'|]; simpl in Hctl; try done.
  - by apply in1d_same_members.
  - by rewrite (selected_id_indices_same _ _ Hsame).
Qed.

End partition.

(** C10: membership is set-wise. If [ids] and [ids'] contain the same ids of
    the dataset (whatever their order, repetitions, or ids foreign to the
    dataset), and so do the control lists when given, then the two runs have
    the same selected mask, the same [selected_ids], the same three counts,
    and the same outcome, image dictionary included. *)
Theorem ids_setwise `{Externals} (ds : Dataset) (ids ids' : list string)
    (ids2 ids2' : option (list string)) (q prior : float) (ms : min_studies_t) :
  same_members (image_table ds) ids ids' ->
  same_control (image_table ds) ids2 ids2' ->
  MetaAnalysis.selected_id_indices_ ds ids = MetaAnalysis.selected_id_indices_ ds ids' /\
  MetaAnalysis.unselected_id_indices ds ids ids2
  = MetaAnalysis.unselected_id_indices ds ids' ids2' /\
  MetaAnalysis.n_selected ds ids = MetaAnalysis.n_selected ds ids' /\
  MetaAnalysis.n_unselected ds ids ids2 = MetaAnalysis.n_unselected ds ids' ids2' /\
  MetaAnalysis.n_mappables ds ids ids2 = MetaAnalysis.n_mappables ds ids' ids2' /\
  MetaAnalysis.images_ ds ids ids2 q prior ms
  = MetaAnalysis.images_ ds ids' ids2' q prior ms /\
  MetaAnalysis.__init__ ds ids ids2 q prior ms
  = MetaAnalysis.__init__ ds ids' ids2' q prior ms.
Proof.
  intros Hsame Hctl.
  pose proof (selected_id_indices_same ds _ _ Hsame) as Hsel.
  pose proof (selected_ids_same ds _ _ Hsame) as Hids.
  pose proof (unselected_id_indices_same ds _ _ _ _ Hsame Hctl) as Huns.
  assert (Hn : MetaAnalysis.n_selected ds ids = MetaAnalysis.n_selected ds ids')
    by (unfold MetaAnalysis.n_selected; by rewrite Hids).
  assert (Hu : MetaAnalysis.n_unselected ds ids ids2
               = MetaAnalysis.n_unselected ds ids' ids2')
    by (unfold MetaAnalysis.n_unselected; by rewrite Huns).
  assert (Hm : MetaAnalysis.n_mappables ds ids ids2
               = MetaAnalysis.n_mappables ds ids' ids2')
    by (unfold MetaAnalysis.n_mappables; by rewrite Hn, Hu).
  assert (Hsa : MetaAnalysis.n_selected_active_voxels ds ids
                = MetaAnalysis.n_selected_active_voxels ds ids')
    by (unfold MetaAnalysis.n_selected_active_voxels; by rewrite Hsel).
  assert (Hua : MetaAnalysis.n_unselected_active_voxels ds ids ids2
                = MetaAnalysis.n_unselected_active_voxels ds ids' ids2')
    by (unfold MetaAnalysis.n_unselected_active_voxels; by rewrite Huns).
  assert (Himg : MetaAnalysis.images_ ds ids ids2 q prior ms
                 = MetaAnalysis.images_ ds ids' ids2' q prior ms).
  { unfold MetaAnalysis.images_, MetaAnalysis.images_computed,
      MetaAnalysis.pFgA_z_FDR, MetaAnalysis.pAgF_z_FDR,
      MetaAnalysis.fdr_thresh_1, MetaAnalysis.fdr_thresh_2,
      MetaAnalysis.pFgA_z, MetaAnalysis.pAgF_z,
      MetaAnalysis.z_sign_1, MetaAnalysis.z_sign_2,
      MetaAnalysis.p_vals_1, MetaAnalysis.p_vals_2, MetaAnalysis.cells,
      MetaAnalysis.pFgA_prior, MetaAnalysis.pAgF_prior, MetaAnalysis.pFgA,
      MetaAnalysis.pAgU, MetaAnalysis.pAgF, MetaAnalysis.pA, MetaAnalysis.pF.
    by rewrite Hm, Hn, Hu, Hsa, Hua. }
  repeat (split; [done|]).
  unfold MetaAnalysis.__init__. by rewrite Himg, Hids, Hsel.
Qed.

(** ** What [__init__] checks *)

Section construction.
Context `{Externals}.
Variables (ds : Dataset) (ids : list string) (ids2 : option (list string)).
Variables (q prior : float) (ms : min_studies_t).

Import MetaAnalysis.

(** On a well-shaped table of more or fewer voxels than one, and with a
    [min_studies] that [float()] converts, the constructor returns, whatever
    the ids and the other parameters. *)
Lemma init_returns :
  ImageTable.shape_ok (image_table ds) = true ->
  n_voxels ds <> 1%nat ->
  min_studies_overflows ms = false ->
  __init__ ds ids ids2 q prior ms
  = Returned {| dataset := ds;
                selected_ids := selected_ids_ ds ids;
                selected_id_indices := selected_id_indices_ ds ids;
                images := images_ ds ids ids2 q prior ms |}.
Proof.
  intros Hshape Hone%Nat.eqb_neq Hms. unfold __init__, mt.
  unfold n_voxels in Hone. by rewrite Hshape, Hone, Hms.
Qed.

(** What a returned analysis is. *)
Lemma init_returned (ma : t) :
  __init__ ds ids ids2 q prior ms = Returned ma ->
  ma = {| dataset := ds;
          selected_ids := selected_ids_ ds ids;
          selected_id_indices := selected_id_indices_ ds ids;
          images := images_ ds ids ids2 q prior ms |}.
Proof.
  unfold __init__.
  destruct (ImageTable.shape_ok _); [|discriminate].
  destruct (Nat.eqb _ 1); [discriminate|].
  destruct (min_studies_overflows ms); [discriminate|].
  by intros [= <-].
Qed.


Lemma images_keys (k : string) :
  is_Some (images_ ds ids ids2 q prior ms !! k) <-> k ∈ image_keys q prior.
Proof.
  unfold images_. rewrite lookup_mask_images, fmap_is_Some.
  apply images_computed_keys.
Qed.

Lemma float_of_Z_0 : np.float_of_Z 0 = 0%float.
Proof. reflexivity. Qed.

(** With no selected study, every [pAgF] entry is a division by zero. *)
Lemma pAgF_degenerate :
  n_selected ds ids = 0 ->
  Forall (fun x => is_finite x = false) (pAgF ds ids).
Proof.
  intros Hn. unfold pAgF. rewrite Hn, float_of_Z_0.
  apply Forall_fmap, Forall_true. intros a. simpl.
  by apply div_zero_not_finite.
Qed.

Lemma pAgU_degenerate :
  n_unselected ds ids ids2 = 0 ->
  Forall (fun x => is_finite x = false) (pAgU ds ids ids2).
Proof.
  intros Hn. unfold pAgU. rewrite Hn, float_of_Z_0.
  apply Forall_fmap, Forall_true. intros a. simpl.
  by apply div_zero_not_finite.
Qed.

End construction.

(** C1, as the code has it: an empty side of the partition is not rejected.
    On a table with one entry per id in every row and a number of voxels
    other than one, and with a [min_studies] that [float()] converts, if
    [n_selected == 0] or [n_unselected == 0] the constructor returns an
    analysis whose dictionary has all nine images; the statistics were
    computed with the zero count as divisor, so every entry of [pAgF] (no
    selected study), respectively [pAgU] (no unselected study), is [nan] or
    an infinity. *)
Theorem degenerate_contrast_not_rejected `{Externals} (ds : Dataset)
    (ids : list string) (ids2 : option (list string)) (q prior : float)
    (ms : min_studies_t) :
  ImageTable.shape_ok (image_table ds) = true ->
  n_voxels ds <> 1%nat ->
  MetaAnalysis.min_studies_overflows ms = false ->
  MetaAnalysis.n_selected ds ids = 0 \/ MetaAnalysis.n_unselected ds ids ids2 = 0 ->
  exists ma,
    MetaAnalysis.__init__ ds ids ids2 q prior ms = Returned ma /\
    (forall k, is_Some (MetaAnalysis.images ma !! k) <-> k ∈ image_keys q prior) /\
    (MetaAnalysis.n_selected ds ids = 0 ->
     Forall (fun x => is_finite x = false) (MetaAnalysis.pAgF ds ids)) /\
    (MetaAnalysis.n_unselected ds ids ids2 = 0 ->
     Forall (fun x => is_finite x = false) (MetaAnalysis.pAgU ds ids ids2)).
Proof.
  intros Hshape Hone Hms _. eexists. split; [by apply init_returns|]. simpl.
  split; [apply images_keys|].
  split; [apply pAgF_degenerate | apply pAgU_degenerate].
Qed.


(** ** The p-to-z conversion *)

Section conversion.
Context `{Externals}.

Import MetaAnalysis.

Lemma lookup_p_to_z (p sign : list float) (v : nat) (x s : float) :
  p !! v = Some x -> sign !! v = Some s ->
  p_to_z p sign !! v = Some (p_to_z_entry x s).
Proof.
  intros Hp Hs. unfold p_to_z, np.put_where_isinf, np.put_where_lt.
  rewrite list_lookup_fmap, lookup_zip_with, !list_lookup_fmap, Hp, Hs.
  reflexivity.
Qed.

(** An infinite z is replaced by the same value in both tails. *)
Lemma p_to_z_entry_capped (x s : float) :
  let h := (x / 2)%float in
  let c := if (h <? 1e-240)%float then 1e-240%float else h in
  is_infinity (abs (norm_ppf c) * s) = true ->
  p_to_z_entry x s = (norm_ppf 1e-240 * -1)%float.
Proof. intros h c Hinf. unfold p_to_z_entry. fold h. fold c. by rewrite Hinf. Qed.




End conversion.


(** ** Probability bounds *)

(** C7, at the four-study table with [ids = [study0]] and the control list
    [ids2 = [study2]]: the counts are 1 and 1, [n_mappables] is 2, and voxel
    2, active in all four studies, gets [pA = 4 / 2 = 2], above 1; the value
    is the one stored in the dictionary of the run. *)
Theorem pA_exceeds_one_with_control :
  MetaAnalysis.n_selected Sample.dataset ["study0"] = 1 /\
  MetaAnalysis.n_unselected Sample.dataset ["study0"] (Some ["study2"]) = 1 /\
  MetaAnalysis.pA Sample.dataset ["study0"] (Some ["study2"])
  = [1%float; 0%float; 2%float] /\
  (1 <? 2)%float = true /\
  exists ma,
    @MetaAnalysis.__init__ Sample.externals Sample.dataset ["study0"]
      (Some ["study2"]) 0.01%float 0.5%float (MinInt 1) = Returned ma /\
    MetaAnalysis.images ma !! "pA" = Some [1%float; 0%float; 2%float].
Proof.
  split; [by vm_compute|]. split; [by vm_compute|].
  split; [by vm_compute|]. split; [reflexivity|].
  eexists. split; [by apply init_returns|]. by vm_compute.
Qed.

(** ** The batch entry point *)

Section columns.

Lemma set_column_same_length (i : nat) (col : list float) (M : list (list float)) :
  length col = length M ->
  set_column i col M = Returned (zip_with (fun row x => <[i := x]> row) M col).
Proof. intros Hlen. unfold set_column. by rewrite Hlen, Nat.eqb_refl. Qed.

Lemma length_set_column (i : nat) (col : list float) (M : list (list float)) :
  length col = length M ->
  length (zip_with (fun row (x : float) => <[i := x]> row) M col) = length M.
Proof. intros Hlen. rewrite length_zip_with. lia. Qed.

Lemma rows_set_column (i m : nat) (col : list float) (M : list (list float)) :
  Forall (fun row => length row = m) M ->
  Forall (fun row => length row = m)
         (zip_with (fun row (x : float) => <[i := x]> row) M col).
Proof.
  intros Hrows. apply Forall_lookup. intros v row.
  intros (row0 & x & -> & Hrow & Hx)%lookup_zip_with_Some.
  rewrite length_insert. by eapply (proj1 (Forall_lookup _ _) Hrows).
Qed.

Lemma column_set_column_eq (i m : nat) (col : list float) (M : list (list float)) :
  length col = length M ->
  Forall (fun row => length row = m) M ->
  (i < m)%nat ->
  column i (zip_with (fun row x => <[i := x]> row) M col) = Some <$> col.
Proof.
  intros Hlen Hrows Hi. apply list_eq. intros v. unfold column.
  rewrite !list_lookup_fmap, lookup_zip_with.
  destruct (col !! v) as [x|] eqn:Hx.
  - destruct (lookup_lt_is_Some_2 M v) as [row Hrow].
    { rewrite <- Hlen. by eapply lookup_lt_Some. }
    rewrite Hrow. simpl. f_equal. apply list_lookup_insert_eq.
    by rewrite (proj1 (Forall_lookup _ _) Hrows _ _ Hrow).
  - by destruct (M !! v).
Qed.

Lemma column_set_column_ne (i c : nat) (col : list float) (M : list (list float)) :
  length col = length M ->
  c <> i ->
  column c (zip_with (fun row x => <[i := x]> row) M col) = column c M.
Proof.
  intros Hlen Hne. apply list_eq. intros v. unfold column.
  rewrite !list_lookup_fmap, lookup_zip_with.
  destruct (M !! v) as [row|] eqn:Hrow; [|done]. simpl.
  destruct (lookup_lt_is_Some_2 col v) as [x Hx].
  { rewrite Hlen. by eapply lookup_lt_Some. }
  rewrite Hx. simpl. f_equal. by apply list_lookup_insert_ne.
Qed.

End columns.

Section batch.
Context `{Externals}.
Variables (ds : Dataset) (image_type : string) (threshold q : float).
Variable (prefix : option string).
Hypothesis Hshape : ImageTable.shape_ok (image_table ds) = true.
Hypothesis Hone : n_voxels ds <> 1%nat.
Hypothesis Hkey : image_type ∈ image_keys q 0.5%float.

Lemma feature_image_Some (f : string) :
  exists img, feature_image ds image_type threshold q f = Some img
              /\ length img = n_voxels ds.
Proof.
  unfold feature_image.
  destruct (proj2 (images_keys ds (get_studies ds f threshold) None q 0.5%float
                     (MinInt 1) image_type) Hkey) as [img Himg].
  exists img. split; [done|]. by eapply images_length.
Qed.

(** One turn of the loop, with no output directory: column [i] is assigned
    the image of the feature. *)
Lemma analyze_feature_in_memory (i : nat) (f : string) (M : list (list float))
    (fs : files) (img : list float) :
  feature_image ds image_type threshold q f = Some img ->
  length M = length img ->
  analyze_feature ds image_type threshold q None prefix i f (M, fs)
  = Returned (zip_with (fun row x => <[i := x]> row) M img, fs).
Proof.
  intros Himg Hlen. unfold analyze_feature.
  rewrite init_returns by done. simpl.
  unfold feature_image in Himg. unfold getitem. rewrite Himg. simpl.
  by rewrite set_column_same_length.
Qed.

Lemma analyze_loop_in_memory (m : nat) (features : list string) :
  forall (i : nat) (M : list (list float)) (fs : files),
    length M = n_voxels ds ->
    Forall (fun row => length row = m) M ->
    (i + length features <= m)%nat ->
    exists M',
      analyze_loop ds image_type threshold q None prefix i features (M, fs)
      = Returned (M', fs) /\
      length M' = n_voxels ds /\
      Forall (fun row => length row = m) M' /\
      (forall j f, features !! j = Some f ->
         exists img, feature_image ds image_type threshold q f = Some img /\
                     column (i + j) M' = Some <$> img) /\
      (forall c, (c < i)%nat -> column c M' = column c M).
Proof.
  induction features as [|f features IH]; intros i M fs HM Hrows Hi.
  - exists M. repeat split; done.
  - simpl in Hi. destruct (feature_image_Some f) as (img & Himg & Hlen).
    simpl. rewrite (analyze_feature_in_memory i f M fs img) by congruence.
    simpl.
    destruct (IH (S i) (zip_with (fun row x => <[i := x]> row) M img) fs)
      as (M' & Hrun & HM' & Hrows' & Hcols & Hkeep).
    { rewrite length_set_column; congruence. }
    { by apply rows_set_column. }
    { lia. }
    exists M'. split; [done|]. split; [done|]. split; [done|]. split.
    + intros [|j] g Hg; simpl in Hg.
      * injection Hg as <-. exists img. split; [done|].
        rewrite Nat.add_0_r, Hkeep by lia.
        apply (column_set_column_eq i m); [congruence | done | lia].
      * destruct (Hcols j g Hg) as (img' & Himg' & Hcol).
        exists img'. split; [done|].
        by replace (i + S j)%nat with (S i + j)%nat by lia.
    + intros c Hc. rewrite Hkeep by lia.
      apply column_set_column_ne; [congruence | lia].
Qed.

End batch.

(** C8: with no output directory, on a well-shaped dataset of more or fewer
    voxels than one whose masker counts the rows of the table, and for an
    [image_type] that is a key of the dictionary, [analyze_features] returns
    a matrix with one row per voxel and one column per feature, writes
    nothing, and column [i] is the image [image_type] of the run on the ids
    looked up for the [i]-th feature, in the order of the list. *)
Theorem analyze_features_columns `{Externals} (ds : Dataset)
    (image_type : string) (threshold q : float) (prefix : option string)
    (features : list string) (fs : files) :
  ImageTable.shape_ok (image_table ds) = true ->
  n_voxels ds <> 1%nat ->
  n_vox_in_mask ds = n_voxels ds ->
  image_type ∈ image_keys q 0.5%float ->
  exists result : matrix,
    analyze_features ds image_type threshold q None prefix (Some features) fs
    = Returned (Some result, fs) /\
    length result = n_voxels ds /\
    Forall (fun row => length row = length features) result /\
    forall i f, features !! i = Some f ->
      exists ma img,
        MetaAnalysis.__init__ ds (get_studies ds f threshold) None q
          0.5%float (MinInt 1) = Returned ma /\
        MetaAnalysis.images ma !! image_type = Some img /\
        column i result = Some <$> img.
Proof.
  intros Hshape Hone Hvox Hkey. unfold analyze_features.
  destruct (analyze_loop_in_memory ds image_type threshold q prefix
              Hshape Hone Hkey (length features) features 0%nat
              (zeros (n_vox_in_mask ds) (length features)) fs)
    as (M' & Hrun & HM' & Hrows & Hcols & _).
  { unfold zeros. by rewrite length_replicate, Hvox. }
  { unfold zeros. apply Forall_replicate, length_replicate. }
  { lia. }
  exists M'. rewrite Hrun. simpl. split; [done|]. split; [done|].
  split; [done|]. intros i f Hf.
  destruct (Hcols i f Hf) as (img & Himg & Hcol).
  eexists _, img. split; [by apply init_returns|]. simpl. done.
Qed.

(** * The statements at concrete inputs *)

(** The scenario of four studies and three voxels, [study0] and [study2]
    selected, no control list: the counts are 2 and 2, voxel 1 never
    activates and its [pFgA] is [nan], voxel 2 activates everywhere and its
    [pFgA] is 0.5. *)
Example scenario_counts :
  MetaAnalysis.n_selected Sample.dataset ["study0"; "study2"] = 2 /\
  MetaAnalysis.n_unselected Sample.dataset ["study0"; "study2"] None = 2 /\
  MetaAnalysis.pA Sample.dataset ["study0"; "study2"] None
  = [0.5%float; 0%float; 1%float] /\
  MetaAnalysis.pAgF Sample.dataset ["study0"; "study2"]
  = [1%float; 0%float; 1%float] /\
  MetaAnalysis.pAgU Sample.dataset ["study0"; "study2"] None
  = [0%float; 0%float; 1%float] /\
  MetaAnalysis.pFgA Sample.dataset ["study0"; "study2"] None
  = [1%float; nan; 0.5%float].
Proof. repeat split; by vm_compute. Qed.

(** C1 fails at the empty id list: no study is selected and the constructor
    returns. *)
Lemma empty_selection_returns :
  MetaAnalysis.n_selected Sample.dataset [] = 0 /\
  exists ma,
    @MetaAnalysis.__init__ Sample.externals Sample.dataset [] None
      0.01%float 0.5%float (MinInt 1) = Returned ma.
Proof. split; [by vm_compute|]. eexists. by apply init_returns. Qed.

Lemma degenerate_contrast_not_rejected_witness :
  exists ma,
    @MetaAnalysis.__init__ Sample.externals Sample.dataset [] None
      0.01%float 0.5%float (MinInt 1) = Returned ma /\
    Forall (fun x => is_finite x = false) (MetaAnalysis.pAgF Sample.dataset []).
Proof.
  destruct (@degenerate_contrast_not_rejected Sample.externals Sample.dataset
              [] None 0.01%float 0.5%float (MinInt 1))
    as (ma & Hret & _ & Hsel & _).
  - reflexivity.
  - by vm_compute.
  - reflexivity.
  - left. by vm_compute.
  - exists ma. split; [exact Hret|]. apply Hsel. by vm_compute.
Defined.





Lemma bayes_consistency_witness :
  exists img,
    @MetaAnalysis.images_computed Sample.externals Sample.dataset
      ["study0"; "study2"] None 0.01%float 0.5%float !! "pFgA" = Some img /\
    img !! 2%nat = Some 0.5%float.
Proof.
  destruct (@bayes_consistency Sample.externals Sample.dataset
              ["study0"; "study2"] None 0.01%float 0.5%float 2%nat
              1%float 1%float 1%float)
    as (_ & (img & Himg & Hv) & _); [by vm_compute ..|].
  exists img. split; [exact Himg | exact Hv].
Defined.

Lemma min_studies_masking_witness :
  exists img',
    @MetaAnalysis.images_ Sample.externals Sample.dataset ["study0"; "study2"]
      None 0.01%float 0.5%float (MinInt 1) !! "pAgF" = Some img' /\
    img' !! 0%nat = Some 1%float.
Proof.
  destruct (@min_studies_masking Sample.externals Sample.dataset
              ["study0"; "study2"] None 0.01%float 0.5%float (MinInt 1)
              "pAgF" [1%float; 0%float; 1%float] 0%nat 1%float)
    as (a & img' & Ha & Himg & _ & Hv & _); [by vm_compute ..|].
  exists img'. split; [exact Himg|].
  vm_compute in Ha. injection Ha as <-. exact Hv.
Defined.

Lemma masking_idempotent_witness :
  MetaAnalysis.mask_images (MinInt 1) 4 [0.5%float; 0%float; 1%float]
    (@MetaAnalysis.images_ Sample.externals Sample.dataset ["study0"; "study2"]
       None 0.01%float 0.5%float (MinInt 1))
  = @MetaAnalysis.images_ Sample.externals Sample.dataset ["study0"; "study2"]
      None 0.01%float 0.5%float (MinInt 1).
Proof.
  apply (@masking_idempotent Sample.externals Sample.dataset
           ["study0"; "study2"] None 0.01%float 0.5%float (MinInt 1)
           [0.5%float; 0%float; 1%float]).
  by vm_compute.
Defined.

Lemma ids_setwise_witness :
  @MetaAnalysis.__init__ Sample.externals Sample.dataset
    ["study2"; "study0"; "study0"; "elsewhere"] (Some ["study1"; "study1"])
    0.01%float 0.5%float (MinInt 1)
  = @MetaAnalysis.__init__ Sample.externals Sample.dataset
      ["study0"; "study2"] (Some ["study1"]) 0.01%float 0.5%float (MinInt 1).
Proof.
  apply (@ids_setwise Sample.externals Sample.dataset
           ["study2"; "study0"; "study0"; "elsewhere"] ["study0"; "study2"]
           (Some ["study1"; "study1"]) (Some ["study1"])).
  - intros x Hx. simpl in Hx. rewrite !elem_of_cons, !elem_of_nil in *.
    intuition (subst; try discriminate; auto).
  - intros x Hx. rewrite !elem_of_cons, !elem_of_nil. tauto.
Defined.

Lemma analyze_features_columns_witness :
  exists result : matrix,
    @analyze_features Sample.externals Sample.dataset "pAgF" 0.001%float
      0.01%float None None (Some ["memory"; "pain"]) ∅
    = Returned (Some result, ∅) /\
    length result = 3%nat.
Proof.
  destruct (@analyze_features_columns Sample.externals Sample.dataset "pAgF"
              0.001%float 0.01%float None ["memory"; "pain"] ∅)
    as (result & Hrun & Hlen & _).
  - reflexivity.
  - by vm_compute.
  - reflexivity.
  - unfold image_keys. rewrite !elem_of_cons. auto.
  - exists result. split; [exact Hrun | exact Hlen].
Defined.

(** The batch run on the two features of the sample, column by column. *)
Example analyze_features_sample :
  @analyze_features Sample.externals Sample.dataset "pAgF" 0.001%float
    0.01%float None None None ∅
  = Returned (Some [[1%float; 0%float]; [0%float; 0%float]; [1%float; 1%float]], ∅).
Proof. by vm_compute. Qed.

(** * Further properties of the module *)

(** ** The partition: ids, masks and counts *)

Section counting.

Lemma count_true_in1d (l ids : list string) :
  np.count_true (np.in1d l ids)
  = Z.of_nat (length (filter (fun s => s ∈ ids) l)).
Proof.
  unfold np.count_true, np.in1d. apply (f_equal Z.of_nat).
  induction l as [|s l IH]; [done|]. rewrite fmap_cons.
  destruct (decide (s ∈ ids)) as [Hin | Hnin].
  - rewrite bool_decide_true by done.
    rewrite (filter_cons_True _ true) by done.
    rewrite (filter_cons_True _ s) by done. simpl. by rewrite IH.
  - rewrite bool_decide_false by done.
    rewrite (filter_cons_False _ false) by done.
    by rewrite (filter_cons_False _ s) by done.
Qed.

Lemma count_true_invert (mask : list bool) :
  np.count_true mask + np.count_true (np.invert mask)
  = Z.of_nat (length mask).
Proof.
  unfold np.count_true, np.invert.
  induction mask as [|[] mask IH]; [done| |]; rewrite fmap_cons; simpl negb.
  - rewrite (filter_cons_True _ true) by done.
    rewrite (filter_cons_False _ false) by done. simpl length. lia.
  - rewrite (filter_cons_False _ false) by done.
    rewrite (filter_cons_True _ true) by done. simpl length. lia.
Qed.

Lemma count_true_bounds (mask : list bool) :
  0 <= np.count_true mask <= Z.of_nat (length mask).
Proof.
  unfold np.count_true. pose proof (length_filter (fun b => b = true) mask). lia.
Qed.

(** The ids in both lists, each once, are as many as the [True] entries of
    the mask when the table's ids are distinct. *)
Lemma selected_ids_filter (l ids : list string) :
  NoDup l ->
  elements (list_to_set l ∩ list_to_set ids : gset string)
  ≡ₚ filter (fun s => s ∈ ids) l.
Proof.
  intros Hnd. apply NoDup_Permutation.
  - apply NoDup_elements.
  - by apply NoDup_filter.
  - intros x. rewrite elem_of_elements, elem_of_intersection,
      !elem_of_list_to_set, list_elem_of_filter. tauto.
Qed.

Lemma dot_row_binary (row : list Z) (mask : list bool) :
  Forall (fun x : Z => x = 0 \/ x = 1) row ->
  0 <= np.dot_row row mask <= np.count_true mask.
Proof.
  intros Hrow. revert mask. unfold np.dot_row, np.count_true.
  induction Hrow as [|x row Hx Hrow IH]; intros [|b mask]; simpl.
  - lia.
  - pose proof (length_filter (fun b => b = true) (b :: mask)). simpl in *. lia.
  - lia.
  - specialize (IH mask). destruct b.
    + rewrite (filter_cons_True _ true) by done. simpl length. lia.
    + rewrite (filter_cons_False _ false) by done. lia.
Qed.

Lemma dot_row_invert (row : list Z) (mask : list bool) :
  length row = length mask ->
  np.dot_row row mask + np.dot_row row (np.invert mask) = np.sum row.
Proof.
  unfold np.dot_row, np.invert, np.sum. revert mask.
  induction row as [|x row IH]; intros [|b mask] Hlen; try done.
  injection Hlen as Hlen. specialize (IH mask Hlen).
  rewrite fmap_cons. cbn [zip_with foldr]. destruct b; simpl negb; cbv iota; lia.
Qed.

Lemma shape_ok_row (mt : ImageTable.t) (v : nat) (row : list Z) :
  ImageTable.shape_ok mt = true ->
  ImageTable.data mt !! v = Some row ->
  length row = length (ImageTable.ids mt).
Proof.
  unfold ImageTable.shape_ok. rewrite forallb_forall. intros Hall Hrow.
  apply Nat.eqb_eq, Hall, list_elem_of_In. by eapply list_elem_of_lookup_2.
Qed.

Lemma lookup_dot (d : list (list Z)) (mask : list bool) (v : nat) :
  np.dot d mask !! v = (fun row => np.dot_row row mask) <$> d !! v.
Proof. unfold np.dot. apply list_lookup_fmap. Qed.

Lemma n_selected_le_count (ds : Dataset) (ids : list string) :
  MetaAnalysis.n_selected ds ids
  <= np.count_true (MetaAnalysis.selected_id_indices_ ds ids).
Proof.
  unfold MetaAnalysis.n_selected, MetaAnalysis.selected_id_indices_,
    MetaAnalysis.selected_ids_, MetaAnalysis.mt.
  rewrite count_true_in1d.
  apply inj_le, submseteq_length, NoDup_submseteq; [apply NoDup_elements|].
  intros x. rewrite elem_of_elements, elem_of_intersection,
    !elem_of_list_to_set, list_elem_of_filter. tauto.
Qed.

Lemma n_selected_eq_count (ds : Dataset) (ids : list string) :
  NoDup (ImageTable.ids (image_table ds)) ->
  MetaAnalysis.n_selected ds ids
  = np.count_true (MetaAnalysis.selected_id_indices_ ds ids).
Proof.
  intros Hnd.
  unfold MetaAnalysis.n_selected, MetaAnalysis.selected_id_indices_,
    MetaAnalysis.selected_ids_, MetaAnalysis.mt.
  rewrite count_true_in1d. f_equal. apply Permutation_length.
  by apply selected_ids_filter.
Qed.

End counting.

(** X2: the two ways the constructor counts the selection. [n_selected],
    the number of distinct ids in both lists, never exceeds the number of
    [True] entries of the mask that the active-voxel counts are summed
    with, and the two agree when the ids of the table are distinct. *)
Theorem n_selected_counts_mask (ds : Dataset) (ids : list string) :
  MetaAnalysis.n_selected ds ids
  <= np.count_true (MetaAnalysis.selected_id_indices_ ds ids) /\
  (NoDup (ImageTable.ids (image_table ds)) ->
   MetaAnalysis.n_selected ds ids
   = np.count_true (MetaAnalysis.selected_id_indices_ ds ids)).
Proof.
  split; [apply n_selected_le_count | apply n_selected_eq_count].
Qed.

(** X3: the complement contrast is a partition of the table. With no
    control list the unselected mask is the negation of the selected one,
    entry by entry, the two masks count all the table's ids between them,
    and with distinct ids [n_mappables] is the number of studies. *)
Theorem complement_partition (ds : Dataset) (ids : list string) :
  (forall i b, MetaAnalysis.selected_id_indices_ ds ids !! i = Some b ->
     MetaAnalysis.unselected_id_indices ds ids None !! i = Some (negb b)) /\
  np.count_true (MetaAnalysis.selected_id_indices_ ds ids)
  + MetaAnalysis.n_unselected ds ids None
  = Z.of_nat (length (ImageTable.ids (image_table ds))) /\
  (NoDup (ImageTable.ids (image_table ds)) ->
   MetaAnalysis.n_mappables ds ids None
   = Z.of_nat (length (ImageTable.ids (image_table ds)))).
Proof.
  assert (Hsum : np.count_true (MetaAnalysis.selected_id_indices_ ds ids)
                 + MetaAnalysis.n_unselected ds ids None
                 = Z.of_nat (length (ImageTable.ids (image_table ds)))).
  { unfold MetaAnalysis.n_unselected, MetaAnalysis.unselected_id_indices.
    rewrite count_true_invert.
    unfold MetaAnalysis.selected_id_indices_, np.in1d, MetaAnalysis.mt.
    by rewrite length_fmap. }
  split; [|split; [exact Hsum|]].
  - intros i b Hb. unfold MetaAnalysis.unselected_id_indices, np.invert.
    by rewrite list_lookup_fmap, Hb.
  - intros Hnd. unfold MetaAnalysis.n_mappables.
    rewrite (n_selected_eq_count ds ids Hnd). exact Hsum.
Qed.

(** X4: in the complement contrast the two active-voxel counts split the
    row sum. On a table with one column per id, for every voxel the
    studies counted as selected-active and as unselected-active add up to
    the voxel's row sum, the numerator of [pA]. *)
Theorem active_counts_decompose (ds : Dataset) (ids : list string) (v : nat)
    (row : list Z) :
  ImageTable.shape_ok (image_table ds) = true ->
  ImageTable.data (image_table ds) !! v = Some row ->
  exists a u,
    MetaAnalysis.n_selected_active_voxels ds ids !! v = Some a /\
    MetaAnalysis.n_unselected_active_voxels ds ids None !! v = Some u /\
    a + u = np.sum row.
Proof.
  intros Hshape Hrow.
  unfold MetaAnalysis.n_selected_active_voxels,
    MetaAnalysis.n_unselected_active_voxels,
    MetaAnalysis.unselected_id_indices, MetaAnalysis.mt.
  rewrite !lookup_dot, Hrow. simpl. eexists _, _.
  split; [reflexivity|]. split; [reflexivity|].
  apply dot_row_invert. rewrite (shape_ok_row _ _ _ Hshape Hrow).
  unfold MetaAnalysis.selected_id_indices_, np.in1d, MetaAnalysis.mt.
  by rewrite length_fmap.
Qed.

(** X5: on a binary matrix whose table has distinct ids, the number of
    active studies of a group never exceeds the size of the group, in the
    complement contrast and with a control list alike; so the four cells of
    every voxel's two-way table are non-negative. *)
Theorem binary_counts_bounded (ds : Dataset) (ids : list string)
    (ids2 : option (list string)) (v : nat) (c : cell) :
  binary_table (image_table ds) ->
  NoDup (ImageTable.ids (image_table ds)) ->
  MetaAnalysis.cells ds ids ids2 !! v = Some c ->
  MetaAnalysis.n_selected_active_voxels ds ids !! v = Some c.1.1 /\
  MetaAnalysis.n_unselected_active_voxels ds ids ids2 !! v = Some c.2.1 /\
  0 <= c.1.1 <= MetaAnalysis.n_selected ds ids /\
  0 <= c.2.1 <= MetaAnalysis.n_unselected ds ids ids2 /\
  0 <= c.1.2 /\ 0 <= c.2.2.
Proof.
  intros Hbin Hnd Hc. unfold MetaAnalysis.cells in Hc.
  apply lookup_zip_with_Some in Hc as (a & u & -> & Ha & Hu). simpl.
  assert (Hra : 0 <= a <= MetaAnalysis.n_selected ds ids).
  { unfold MetaAnalysis.n_selected_active_voxels in Ha.
    rewrite lookup_dot in Ha.
    destruct (ImageTable.data (MetaAnalysis.mt ds) !! v) as [row|] eqn:Hrow;
      [|discriminate].
    injection Ha as <-. rewrite (n_selected_eq_count ds ids Hnd).
    apply dot_row_binary.
    by eapply (proj1 (Forall_lookup _ _) Hbin). }
  assert (Hru : 0 <= u <= MetaAnalysis.n_unselected ds ids ids2).
  { unfold MetaAnalysis.n_unselected_active_voxels in Hu.
    rewrite lookup_dot in Hu.
    destruct (ImageTable.data (MetaAnalysis.mt ds) !! v) as [row|] eqn:Hrow;
      [|discriminate].
    injection Hu as <-. apply dot_row_binary.
    by eapply (proj1 (Forall_lookup _ _) Hbin). }
  repeat split; try done; lia.
Qed.

(** ** The image dictionary and the z-scores *)

Section dictionary_shape.
Context `{Externals}.

Lemma image_keys_NoDup (q prior : float) : NoDup (image_keys q prior).
Proof.
  unfold image_keys.
  repeat (apply NoDup_cons; split;
    [rewrite ?not_elem_of_cons; repeat split;
       first [apply not_elem_of_nil
             | let E := fresh in intros E; simpl in E; discriminate E]
    |]).
  apply NoDup_nil_2.
Qed.

Lemma Forall_put (P : float -> Prop) (idx : list nat) (x : float)
    (a : list float) :
  P x -> Forall P a -> Forall P (np.put idx x a).
Proof.
  intros Hx Ha. induction idx as [|i idx IH]; simpl; [done|].
  by apply Forall_insert.
Qed.

Lemma p_to_z_not_infinite (p sign : list float) :
  is_infinity (norm_ppf 1e-240 * -1) = false ->
  Forall (fun z => is_infinity z = false) (MetaAnalysis.p_to_z p sign).
Proof.
  intros Hcap. unfold MetaAnalysis.p_to_z, np.put_where_isinf.
  apply Forall_fmap, Forall_true. intros y. simpl. unfold np.isinf.
  by destruct (is_infinity y) eqn:Hy.
Qed.

(** [np.sign] yields 1, -1, 0, or the [nan] it was given. *)
Lemma sign_values (x : float) : sign_value (np.sign x).
Proof.
  unfold sign_value, np.sign.
  destruct (0 <? x)%float eqn:Hpos; [by left|].
  destruct (x <? 0)%float eqn:Hneg; [by right; left|].
  destruct (x =? 0)%float eqn:Hzero; [by right; right; left|].
  right; right; right. unfold is_nan. revert Hpos Hneg Hzero.
  rewrite !FloatAxioms.ltb_spec, !FloatAxioms.eqb_spec.
  change (Prim2SF 0) with (S754_zero false).
  destruct (Prim2SF x) as [[] | [] | | [] m e]; simpl; try discriminate.
  done.
Qed.

End dictionary_shape.

(** X6: the shape of the result. Whatever the ids and the parameters, the
    dictionary of a returned analysis has exactly nine entries, under the
    nine keys (no two keys coincide, whatever text the formats of [prior]
    and [q] produce), every image has one entry per voxel of the table, and
    every index the mask assigns to is an index of the images. *)
Theorem images_shape `{Externals} (ds : Dataset) (ids : list string)
    (ids2 : option (list string)) (q prior : float) (ms : min_studies_t)
    (ma : MetaAnalysis.t) :
  MetaAnalysis.__init__ ds ids ids2 q prior ms = Returned ma ->
  size (MetaAnalysis.images ma) = 9%nat /\
  dom (MetaAnalysis.images ma) = list_to_set (image_keys q prior) /\
  map_Forall (fun _ img => length img = n_voxels ds) (MetaAnalysis.images ma) /\
  Forall (fun v => (v < n_voxels ds)%nat)
         (MetaAnalysis.vox_to_exclude ms (MetaAnalysis.n_mappables ds ids ids2)
            (MetaAnalysis.pA ds ids ids2)).
Proof.
  intros ->%init_returned. simpl.
  assert (Hdom : dom (MetaAnalysis.images_ ds ids ids2 q prior ms)
                 = list_to_set (image_keys q prior)).
  { apply set_eq. intros k.
    rewrite elem_of_dom, elem_of_list_to_set. apply images_keys. }
  split; [|split; [exact Hdom|split]].
  - rewrite <- size_dom, Hdom, size_list_to_set by apply image_keys_NoDup.
    reflexivity.
  - apply images_length.
  - apply Forall_forall. intros v Hv%where_lt_lt_length.
    by rewrite length_pA in Hv.
Qed.

(** X7: no infinite z-score leaves the constructor. If the cap
    [norm.ppf(1e-240) * -1] is not itself infinite, [p_to_z] returns no
    infinity for any p-values and signs, and neither "consistency_z" nor
    "specificity_z" of the final dictionary holds one. *)
Theorem z_scores_not_infinite `{Externals} (ds : Dataset) (ids : list string)
    (ids2 : option (list string)) (q prior : float) (ms : min_studies_t) :
  is_infinity (norm_ppf 1e-240 * -1) = false ->
  (forall p sign,
     Forall (fun z => is_infinity z = false) (MetaAnalysis.p_to_z p sign)) /\
  (forall k img,
     k = "consistency_z" \/ k = "specificity_z" ->
     MetaAnalysis.images_ ds ids ids2 q prior ms !! k = Some img ->
     Forall (fun z => is_infinity z = false) img).
Proof.
  intros Hcap. split; [intros p sign; by apply p_to_z_not_infinite|].
  intros k img Hk. unfold MetaAnalysis.images_.
  rewrite lookup_mask_images.
  assert (Hz : exists z, MetaAnalysis.images_computed ds ids ids2 q prior !! k
                         = Some z
                         /\ Forall (fun z => is_infinity z = false) z).
  { destruct Hk as [-> | ->].
    - eexists. split; [apply lookup_consistency_z|].
      by apply p_to_z_not_infinite.
    - eexists. split; [apply lookup_specificity_z|].
      by apply p_to_z_not_infinite. }
  destruct Hz as (z & -> & Hz). simpl. intros [= <-].
  destruct (MetaAnalysis.min_studies_positive ms); [|done].
  by apply Forall_put.
Qed.

(** ** [save_results] *)

Section paths.







(** What a returning [save_results] leaves in the files, for any
    dictionary: the image of every listed key at its path when the paths of
    listed keys are distinct, and the old content at every other path. *)
Lemma save_results_lookup `{Externals} (self : MetaAnalysis.t)
    (d prefix sep : string) (il : option (list string)) (fs fs' : files) :
  save_results self d prefix sep il fs = Returned fs' ->
  ((forall k k', is_Some (MetaAnalysis.images self !! k) ->
                 is_Some (MetaAnalysis.images self !! k') ->
                 outpath d prefix sep k = outpath d prefix sep k' -> k = k') ->
   forall k img, MetaAnalysis.images self !! k = Some img ->
                 listed il k = true ->
                 fs' !! outpath d prefix sep k = Some img) /\
  (forall p, (forall k, is_Some (MetaAnalysis.images self !! k) ->
                        listed il k = true -> outpath d prefix sep k <> p) ->
             fs' !! p = fs !! p).
Proof.
  unfold save_results. destruct (dir_ready d); [|discriminate].
  revert fs'.
  apply (map_fold_weak_ind (fun r m => forall fs', r = Returned fs' ->
    ((forall k k', is_Some (m !! k) -> is_Some (m !! k') ->
                   outpath d prefix sep k = outpath d prefix sep k' -> k = k') ->
     forall k img, m !! k = Some img -> listed il k = true ->
                   fs' !! outpath d prefix sep k = Some img) /\
    (forall p, (forall k, is_Some (m !! k) -> listed il k = true ->
                          outpath d prefix sep k <> p) ->
               fs' !! p = fs !! p))).
  - intros fs' [= <-].
    split; [intros _ k img Hk; by rewrite lookup_empty in Hk | done].
  - intros i x m r Hi IH fs'. unfold save_image.
    destruct r as [fs0 | e]; simpl; [|discriminate].
    destruct (IH fs0 eq_refl) as [IHa IHb]. unfold files in *.
    change (match il with
            | Some l => bool_decide (i ∈ l)
            | None => true
            end) with (listed il i).
    change (join d _) with (outpath d prefix sep i).
    intros Hstep.
    assert (Hfs' : fs' = if listed il i
                         then <[outpath d prefix sep i := x]> fs0 else fs0).
    { destruct (listed il i); [|by injection Hstep].
      destruct (save_img_ok d x _); [by injection Hstep | discriminate]. }
    clear Hstep. subst fs'. split.
    + intros Hinj k img Hk Hl.
      assert (Hinj' : forall k k', is_Some (m !! k) -> is_Some (m !! k') ->
                outpath d prefix sep k = outpath d prefix sep k' -> k = k').
      { intros k1 k2 [y1 H1] [y2 H2]. apply Hinj.
        - destruct (decide (i = k1)) as [-> | ?]; [congruence|].
          rewrite lookup_insert_ne by done. eauto.
        - destruct (decide (i = k2)) as [-> | ?]; [congruence|].
          rewrite lookup_insert_ne by done. eauto. }
      destruct (decide (i = k)) as [-> | Hne].
      * rewrite lookup_insert_eq in Hk. injection Hk as ->.
        rewrite Hl. apply lookup_insert_eq.
      * rewrite lookup_insert_ne in Hk by done.
        assert (Hp : outpath d prefix sep i <> outpath d prefix sep k).
        { intros Heq. apply Hne, Hinj; [| |done].
          - rewrite lookup_insert_eq. eauto.
          - rewrite lookup_insert_ne by done. eauto. }
        destruct (listed il i); [rewrite lookup_insert_ne by done|];
          by eapply IHa.
    + intros p Hp.
      assert (Hp' : forall k, is_Some (m !! k) -> listed il k = true ->
                outpath d prefix sep k <> p).
      { intros k [y Hk] Hl. apply Hp; [|done].
        destruct (decide (i = k)) as [-> | ?]; [congruence|].
        rewrite lookup_insert_ne by done. eauto. }
      destruct (listed il i) eqn:Hl; [|by apply IHb].
      rewrite lookup_insert_ne; [by apply IHb|].
      apply Hp; [|done]. rewrite lookup_insert_eq. eauto.
Qed.

(** [save_results] returns when the directory is ready and the writer
    accepts every listed image. *)
Lemma save_results_returns `{Externals} (self : MetaAnalysis.t)
    (d prefix sep : string) (il : option (list string)) (fs : files) :
  dir_ready d = true ->
  writer_accepts d prefix sep il (MetaAnalysis.images self) ->
  exists fs', save_results self d prefix sep il fs = Returned fs'.
Proof.
  intros Hdir. unfold save_results, writer_accepts. rewrite Hdir.
  apply (map_fold_weak_ind (fun r m =>
    (forall k img, m !! k = Some img -> listed il k = true ->
                   save_img_ok d img (outpath d prefix sep k) = true) ->
    exists fs', r = Returned fs')).
  - intros _. by eexists.
  - intros i x m r Hi IH Hacc. unfold save_image.
    destruct IH as [fs0 ->].
    { intros k img Hk. apply Hacc.
      destruct (decide (i = k)) as [-> | ?]; [congruence|].
      by rewrite lookup_insert_ne. }
    simpl.
    change (match il with
            | Some l => bool_decide (i ∈ l)
            | None => true
            end) with (listed il i).
    change (join d _) with (outpath d prefix sep i).
    destruct (listed il i) eqn:Hl; [|by eexists].
    rewrite (Hacc i x) by (by rewrite ?lookup_insert_eq). by eexists.
Qed.


End paths.


(** X10: [save_results] writes nothing else. For any analysis and any
    arguments (the output directory there, or made), a path that is not the
    path of a listed key of the dictionary keeps its content when the call
    returns, and with an empty [image_list] the call returns the files
    exactly as they were. *)
Theorem save_results_only_listed `{Externals} (self : MetaAnalysis.t)
    (d prefix sep : string) (il : option (list string)) (fs : files) :
  dir_ready d = true ->
  (forall fs' p,
     save_results self d prefix sep il fs = Returned fs' ->
     (forall k, is_Some (MetaAnalysis.images self !! k) ->
                listed il k = true -> outpath d prefix sep k <> p) ->
     fs' !! p = fs !! p) /\
  save_results self d prefix sep (Some []) fs = Returned fs.
Proof.
  intros Hdir. split.
  { intros fs' p Hrun. by apply (save_results_lookup self d prefix sep il fs). }
  destruct (save_results_returns self d prefix sep (Some []) fs Hdir)
    as [fs' Hrun].
  { intros k img _ Hl. simpl in Hl. discriminate Hl. }
  rewrite Hrun. f_equal. apply map_eq. intros p.
  apply (save_results_lookup self d prefix sep (Some []) fs fs' Hrun).
  intros k _ Hl. simpl in Hl. discriminate Hl.
Qed.

(** ** [analyze_features]: errors and the writing mode *)

Section batch_edges.
Context `{Externals}.
Variables (ds : Dataset) (image_type : string) (threshold q : float).
Variable (prefix : option string).
Hypothesis Hshape : ImageTable.shape_ok (image_table ds) = true.
Hypothesis Hone : n_voxels ds <> 1%nat.





End batch_edges.

(** X12: an unknown [image_type] surfaces as KeyError at the first feature.
    With no output directory, on a well-shaped table of more or fewer voxels
    than one, if [image_type] is not one of the nine keys of a run with the
    default prior 0.5 and the given [q], a non-empty feature list raises
    [KeyError(image_type)]; an empty list returns a matrix with no column
    and no lookup happens, on any table. *)
Theorem analyze_features_unknown_image_type `{Externals} (ds : Dataset)
    (image_type : string) (threshold q : float) (prefix : option string)
    (f : string) (features : list string) (fs : files) :
  ImageTable.shape_ok (image_table ds) = true ->
  n_voxels ds <> 1%nat ->
  image_type ∉ image_keys q 0.5%float ->
  analyze_features ds image_type threshold q None prefix (Some (f :: features)) fs
  = Raised (KeyError image_type) /\
  analyze_features ds image_type threshold q None prefix (Some []) fs
  = Returned (Some (replicate (n_vox_in_mask ds) []), fs).
Proof.
  intros Hshape Hone Hkey. split; [|reflexivity].
  unfold analyze_features. simpl. unfold analyze_feature.
  rewrite init_returns by done. simpl. unfold getitem.
  destruct (MetaAnalysis.images_ ds (get_studies ds f threshold) None q
              0.5%float (MinInt 1) !! image_type) as [img|] eqn:Himg; [|done].
  exfalso. apply Hkey. eapply images_keys. eauto.
Qed.


(** X14: a masker that disagrees with the table is caught by the column
    assignment. With no output directory, a valid [image_type] and a
    well-shaped table whose number of rows is neither the masker's voxel
    count nor 1 (a single entry would be broadcast), a non-empty feature
    list raises ValueError. *)
Theorem analyze_features_voxel_mismatch `{Externals} (ds : Dataset)
    (image_type : string) (threshold q : float) (prefix : option string)
    (f : string) (features : list string) (fs : files) :
  ImageTable.shape_ok (image_table ds) = true ->
  image_type ∈ image_keys q 0.5%float ->
  n_vox_in_mask ds <> n_voxels ds ->
  n_voxels ds <> 1%nat ->
  analyze_features ds image_type threshold q None prefix (Some (f :: features)) fs
  = Raised ValueError.
Proof.
  intros Hshape Hkey Hvox Hone.
  destruct (feature_image_Some ds image_type threshold q Hkey f)
    as (img & Himg & Hlen).
  unfold analyze_features. simpl. unfold analyze_feature.
  rewrite init_returns by done. simpl. unfold getitem.
  unfold feature_image in Himg. rewrite Himg. simpl.
  unfold set_column, zeros. rewrite length_replicate, Hlen.
  rewrite (proj2 (Nat.eqb_neq _ _)) by done.
  destruct img as [|x [|y img]]; simpl in *; [done | lia | done].
Qed.

(** ** Empty groups, and running again from the stored ids *)

Section empty_groups.

Lemma in1d_nil (l : list string) :
  Forall (fun b => b = false) (np.in1d l []).
Proof.
  unfold np.in1d. apply Forall_fmap, Forall_true. intros s. reflexivity.
Qed.

Lemma count_true_none (mask : list bool) :
  Forall (fun b => b = false) mask -> np.count_true mask = 0.
Proof.
  intros Hall. unfold np.count_true.
  induction Hall as [|b mask -> _ IH]; [done|].
  by rewrite (filter_cons_False _ false) by done.
Qed.

Lemma dot_row_none (row : list Z) (mask : list bool) :
  Forall (fun b => b = false) mask -> np.dot_row row mask = 0.
Proof.
  intros Hall. revert row. unfold np.dot_row, np.sum.
  induction Hall as [|b mask -> _ IH]; intros [|x row]; simpl; try done.
  by rewrite IH.
Qed.

Lemma dot_none (d : list (list Z)) (mask : list bool) :
  Forall (fun b => b = false) mask ->
  Forall (fun a => a = 0) (np.dot d mask).
Proof.
  intros Hall. unfold np.dot. apply Forall_fmap, Forall_true.
  intros row. simpl. by apply dot_row_none.
Qed.

Lemma zero_over_zero_nan (l : list Z) :
  Forall (fun a => a = 0) l ->
  Forall (fun x => is_nan x = true)
         (fmap (fun a => (np.float_of_Z a * 1 / np.float_of_Z 0)%float) l).
Proof.
  intros Hall. apply Forall_fmap. eapply Forall_impl; [exact Hall|].
  intros a ->. reflexivity.
Qed.


End empty_groups.

(** X15: an empty control list is not "no control list". With [ids2 = []]
    the unselected group is empty: its count is 0, [n_mappables] equals
    [n_selected], no voxel has an unselected-active study, and every [pAgU]
    entry is 0/0, NaN. *)
Theorem empty_control_list (ds : Dataset) (ids : list string) :
  MetaAnalysis.n_unselected ds ids (Some []) = 0 /\
  MetaAnalysis.n_mappables ds ids (Some []) = MetaAnalysis.n_selected ds ids /\
  Forall (fun a => a = 0)
         (MetaAnalysis.n_unselected_active_voxels ds ids (Some [])) /\
  Forall (fun x => is_nan x = true) (MetaAnalysis.pAgU ds ids (Some [])).
Proof.
  assert (Hn : MetaAnalysis.n_unselected ds ids (Some []) = 0).
  { unfold MetaAnalysis.n_unselected, MetaAnalysis.unselected_id_indices.
    apply count_true_none, in1d_nil. }
  assert (Ha : Forall (fun a => a = 0)
                 (MetaAnalysis.n_unselected_active_voxels ds ids (Some []))).
  { unfold MetaAnalysis.n_unselected_active_voxels,
      MetaAnalysis.unselected_id_indices.
    apply dot_none, in1d_nil. }
  split; [done|]. split; [unfold MetaAnalysis.n_mappables; lia|].
  split; [done|]. unfold MetaAnalysis.pAgU. rewrite Hn.
  by apply zero_over_zero_nan.
Qed.

(** X16: an empty [ids] list. No study is selected: the mask is all false,
    [n_selected] is 0, no voxel has a selected-active study, every [pAgF]
    entry is 0/0, NaN, and without a control list every study of the table
    is unselected. *)
Theorem empty_ids_list (ds : Dataset) :
  Forall (fun b => b = false) (MetaAnalysis.selected_id_indices_ ds []) /\
  MetaAnalysis.n_selected ds [] = 0 /\
  Forall (fun a => a = 0) (MetaAnalysis.n_selected_active_voxels ds []) /\
  Forall (fun x => is_nan x = true) (MetaAnalysis.pAgF ds []) /\
  MetaAnalysis.n_unselected ds [] None
  = Z.of_nat (length (ImageTable.ids (image_table ds))).
Proof.
  assert (Hmask : Forall (fun b => b = false)
                    (MetaAnalysis.selected_id_indices_ ds []))
    by apply in1d_nil.
  assert (Hn : MetaAnalysis.n_selected ds [] = 0).
  { pose proof (n_selected_le_count ds []) as Hle.
    rewrite (count_true_none _ Hmask) in Hle.
    unfold MetaAnalysis.n_selected in *. lia. }
  assert (Ha : Forall (fun a => a = 0)
                 (MetaAnalysis.n_selected_active_voxels ds []))
    by (by apply dot_none).
  split; [done|]. split; [done|]. split; [done|]. split.
  - unfold MetaAnalysis.pAgF. rewrite Hn. by apply zero_over_zero_nan.
  - pose proof (count_true_invert (MetaAnalysis.selected_id_indices_ ds []))
      as Hsum.
    rewrite (count_true_none _ Hmask) in Hsum.
    unfold MetaAnalysis.n_unselected, MetaAnalysis.unselected_id_indices.
    rewrite Z.add_0_l in Hsum. rewrite Hsum.
    unfold MetaAnalysis.selected_id_indices_, np.in1d, MetaAnalysis.mt.
    by rewrite length_fmap.
Qed.


(** ** The further properties at concrete inputs *)

Lemma sample_init_returns (ids : list string) (ids2 : option (list string))
    (q prior : float) :
  @MetaAnalysis.__init__ Sample.externals Sample.dataset ids ids2 q prior
    (MinInt 1)
  = Returned
      {| MetaAnalysis.dataset := Sample.dataset;
         MetaAnalysis.selected_ids := MetaAnalysis.selected_ids_ Sample.dataset ids;
         MetaAnalysis.selected_id_indices :=
           MetaAnalysis.selected_id_indices_ Sample.dataset ids;
         MetaAnalysis.images :=
           @MetaAnalysis.images_ Sample.externals Sample.dataset ids ids2 q
             prior (MinInt 1) |}.
Proof. by apply init_returns. Qed.

Lemma active_counts_decompose_witness :
  exists a u,
    MetaAnalysis.n_selected_active_voxels Sample.dataset ["study0"] !! 2%nat
    = Some a /\
    MetaAnalysis.n_unselected_active_voxels Sample.dataset ["study0"] None
      !! 2%nat = Some u /\
    a + u = np.sum [1; 1; 1; 1].
Proof.
  apply (active_counts_decompose Sample.dataset ["study0"] 2 [1; 1; 1; 1]);
    reflexivity.
Defined.

Lemma binary_counts_bounded_witness :
  0 <= 2 <= MetaAnalysis.n_selected Sample.dataset ["study0"; "study2"] /\
  0 <= 0 <= MetaAnalysis.n_unselected Sample.dataset ["study0"; "study2"] None.
Proof.
  destruct (binary_counts_bounded Sample.dataset ["study0"; "study2"] None
              0 ((2, 0), (0, 2)))
    as (_ & _ & Hsel & Huns & _).
  - apply (bool_decide_unpack _). by vm_compute.
  - apply (bool_decide_unpack _). by vm_compute.
  - by vm_compute.
  - split; [exact Hsel | exact Huns].
Defined.

Lemma images_shape_witness :
  exists ma,
    @MetaAnalysis.__init__ Sample.externals Sample.dataset ["study0"; "study2"]
      None 0.01%float 0.5%float (MinInt 1) = Returned ma /\
    size (MetaAnalysis.images ma) = 9%nat.
Proof.
  eexists. split; [apply sample_init_returns|].
  destruct (@images_shape Sample.externals Sample.dataset ["study0"; "study2"]
              None 0.01%float 0.5%float (MinInt 1) _
              (sample_init_returns ["study0"; "study2"] None 0.01%float
                 0.5%float)) as (Hsize & _).
  exact Hsize.
Defined.

Lemma z_scores_not_infinite_witness :
  Forall (fun z => is_infinity z = false)
         (@MetaAnalysis.p_to_z Sample.externals [0.5%float; 2%float; 0%float]
            [1%float; (-1)%float; 1%float]).
Proof.
  destruct (@z_scores_not_infinite Sample.externals Sample.dataset
              ["study0"; "study2"] None 0.01%float 0.5%float (MinInt 1)
              eq_refl) as [Hz _].
  apply Hz.
Defined.


Lemma analyze_features_unknown_image_type_witness :
  @analyze_features Sample.externals Sample.dataset "pAgF_given_pF=0.25"
    0.001%float 0.01%float None None (Some ["memory"; "pain"]) ∅
  = Raised (KeyError "pAgF_given_pF=0.25").
Proof.
  apply (@analyze_features_unknown_image_type Sample.externals Sample.dataset
           "pAgF_given_pF=0.25" 0.001%float 0.01%float None "memory" ["pain"] ∅).
  - reflexivity.
  - by vm_compute.
  - unfold image_keys. cbn. rewrite !not_elem_of_cons.
    repeat split; first [apply not_elem_of_nil | discriminate].
Defined.


Lemma analyze_features_voxel_mismatch_witness :
  @analyze_features Sample.externals mismatched_dataset "pAgF" 0.001%float
    0.01%float None None (Some ["memory"]) ∅
  = Raised ValueError.
Proof.
  apply (@analyze_features_voxel_mismatch Sample.externals mismatched_dataset
           "pAgF" 0.001%float 0.01%float None "memory" [] ∅).
  - reflexivity.
  - unfold image_keys. rewrite !elem_of_cons. auto.
  - by vm_compute.
  - by vm_compute.
Defined.


Lemma save_results_only_listed_witness :
  @save_results Sample.externals
    {| MetaAnalysis.dataset := Sample.dataset;
       MetaAnalysis.selected_ids := [];
       MetaAnalysis.selected_id_indices := [];
       MetaAnalysis.images := {[ "pA" := [1%float] ]} |}
    "out" "memory" "_" (Some []) {[ "out/memory_pA.nii.gz" := [2%float] ]}
  = Returned {[ "out/memory_pA.nii.gz" := [2%float] ]}.
Proof.
  apply (@save_results_only_listed Sample.externals _ "out" "memory" "_" None).
  reflexivity.
Defined.
